(** * wandb-mcp: the run, project and metric accessors over a remote client

    A shallow embedding of [src/get_wandb_runs.py] and
    [src/wandb_mcp_server.py].  Python values are a small inductive type,
    dictionaries that are iterated keep their insertion order (association
    lists), dictionaries that are only written and read by key are finite
    maps, and an exception is the [Err] branch of a result type: the two
    files catch nothing, so whatever is raised leaves the function. *)

From Stdlib Require Import ZArith String Ascii List.
From stdpp Require Import base option list gmap strings.

Open Scope string_scope.
Open Scope list_scope.

Set Warnings "-register-all".

(** ** Python values *)

Inductive value : Type :=
| VNone
| VInt (n : Z)
| VStr (s : string)
| VList (xs : list value)
| VDict (kvs : list (string * value)).

(** A dictionary in insertion order; keys are strings throughout. *)
Abbreviation pydict := (list (string * value)).

(** The exceptions that can leave a function of the two files.  The first
    three are raised by the interpreter on the code's own operations;
    [ClientError] is anything raised inside the wandb client, identified by
    the name of its class and its message. *)
Inductive exn : Type :=
| KeyError (key : string)
| TypeError
| AttributeError
| ClientError (cls msg : string).

Definition exn_class (e : exn) : string :=
  match e with
  | KeyError _ => "KeyError"
  | TypeError => "TypeError"
  | AttributeError => "AttributeError"
  | ClientError cls _ => cls
  end.

Inductive result (A : Type) : Type :=
| Ok (a : A)
| Err (e : exn).
Arguments Ok {A} a.
Arguments Err {A} e.

#[global] Instance result_ret : MRet result := fun _ a => Ok a.
#[global] Instance result_bind : MBind result := fun _ _ f m =>
  match m with
  | Ok a => f a
  | Err e => Err e
  end.

(** [d[k]]: a missing key raises KeyError. *)
Fixpoint assoc (k : string) (d : pydict) : option value :=
  match d with
  | [] => None
  | (k', v) :: d' => if String.eqb k k' then Some v else assoc k d'
  end.

Definition getitem (d : pydict) (k : string) : result value :=
  match assoc k d with
  | Some v => Ok v
  | None => Err (KeyError k)
  end.

(** [a == b].  Lists compare element by element, dictionaries compare as
    mappings (same size, same value under every key), values of different
    types are unequal. *)
Fixpoint py_eq (a b : value) : bool :=
  match a, b with
  | VNone, VNone => true
  | VInt x, VInt y => Z.eqb x y
  | VStr s, VStr t => String.eqb s t
  | VList xs, VList ys =>
      (fix go (xs ys : list value) : bool :=
         match xs, ys with
         | [], [] => true
         | x :: xs', y :: ys' => py_eq x y && go xs' ys'
         | _, _ => false
         end) xs ys
  | VDict d1, VDict d2 =>
      Nat.eqb (length d1) (length d2) &&
      (fix go (d : list (string * value)) : bool :=
         match d with
         | [] => true
         | (k, v) :: d' =>
             match assoc k d2 with
             | Some w => py_eq v w && go d'
             | None => false
             end
         end) d1
  | _, _ => false
  end.

(** [a < b]: defined between two integers, two strings (code point order,
    which is byte order on UTF-8) and two lists (first differing position);
    anything else raises TypeError. *)
Fixpoint py_lt (a b : value) : result bool :=
  match a, b with
  | VInt x, VInt y => Ok (Z.ltb x y)
  | VStr s, VStr t => Ok (String.ltb s t)
  | VList xs, VList ys =>
      (fix go (xs ys : list value) : result bool :=
         match xs, ys with
         | [], [] => Ok false
         | [], _ :: _ => Ok true
         | _ :: _, [] => Ok false
         | x :: xs', y :: ys' => if py_eq x y then go xs' ys' else py_lt x y
         end) xs ys
  | _, _ => Err TypeError
  end.

(** [a <= b], with the same domain as [py_lt]. *)
Fixpoint py_le (a b : value) : result bool :=
  match a, b with
  | VInt x, VInt y => Ok (Z.leb x y)
  | VStr s, VStr t => Ok (String.leb s t)
  | VList xs, VList ys =>
      (fix go (xs ys : list value) : result bool :=
         match xs, ys with
         | [], _ => Ok true
         | _ :: _, [] => Ok false
         | x :: xs', y :: ys' => if py_eq x y then go xs' ys' else py_le x y
         end) xs ys
  | _, _ => Err TypeError
  end.

(** [a >= b]. *)
Definition py_ge (a b : value) : result bool := py_le b a.

(** ** Strings *)

(** [needle in hay] on two strings: [needle] occurs at some position of
    [hay], character for character. *)
Fixpoint contains (needle hay : string) : bool :=
  String.prefix needle hay ||
  match hay with
  | EmptyString => false
  | String _ hay' => contains needle hay'
  end.

(** [s.startswith('-')] *)
Definition startswith_dash (s : string) : bool :=
  match s with
  | String "-" _ => true
  | _ => false
  end.

(** [s.lstrip('-')]: every leading dash goes. *)
Fixpoint lstrip_dash (s : string) : string :=
  match s with
  | String "-" s' => lstrip_dash s'
  | _ => s
  end.

(** [s in v] for a string [s]: substring of a string, member of a list, key
    of a dictionary; None and integers are not containers. *)
Definition py_in (s : string) (v : value) : result bool :=
  match v with
  | VStr t => Ok (contains s t)
  | VList xs => Ok (existsb (py_eq (VStr s)) xs)
  | VDict d => Ok (bool_decide (is_Some (assoc s d)))
  | VNone | VInt _ => Err TypeError
  end.

(** ** The remote client

    [wandb.Api()] is built afresh by every function and holds no state of
    this program, so a client is the read-only snapshot it answers from. *)

(** A pandas frame as the code reads it: column labels in order, each with
    its cells. *)
Abbreviation dataframe := (list (string * list value)).

(** [run.history()] reads the logged metrics, [run.history(stream="events")]
    the system telemetry. *)
Inductive stream : Type :=
| StreamDefault
| StreamEvents.

Record run_obj : Type := Run {
  run_id : value;
  run_name : value;
  run_state : value;
  run_config : value;
  run_summary : value;
  run_created_at : value;
  run_url : value;
  run_tags : value;
  run_history : stream → result dataframe
}.

Record project_obj : Type := Project {
  project_name : value;
  project_entity : value;
  project_description : value;
  project_visibility : value;
  project_created_at : value;
  project_updated_at : value;
  project_tags : value
}.

(** What a [for] loop sees of a paginated listing: the items it yields and
    then either exhaustion or an exception (also when the call itself is
    what raises: nothing is yielded first). *)
Record listing (A : Type) : Type := Listing {
  yielded : list A;
  raised : option exn
}.
Arguments Listing {A} yielded raised.
Arguments yielded {A} _.
Arguments raised {A} _.

Record Api : Type := {
  api_runs : string → gmap string value → listing run_obj;
  api_projects : string → listing project_obj;
  api_run : string → result run_obj;
  api_client_execute : string → pydict → result value
}.

(** [acc = []; for x in it: acc.append(f x)]: the accumulator is local, so
    an exception from the iterator loses it. *)
Fixpoint collect {A B : Type} (f : A → B) (items : list A) (stop : option exn)
    (acc : list B) : result (list B) :=
  match items with
  | x :: items' => collect f items' stop (acc ++ [f x])
  | [] =>
      match stop with
      | None => Ok acc
      | Some e => Err e
      end
  end.

Definition for_each {A B : Type} (f : A → B) (it : listing A) : result (list B) :=
  collect f (yielded it) (raised it) [].

(** [[x for x in l if p(x)]] where [p] may raise: elements are tested in
    order and the first exception ends the comprehension. *)
Fixpoint filterM {A : Type} (p : A → result bool) (l : list A) : result (list A) :=
  match l with
  | [] => Ok []
  | x :: l' =>
      b ← p x;
      kept ← filterM p l';
      Ok (if b : bool then x :: kept else kept)
  end.

(** ** list.sort(key=..., reverse=...)

    As CPython does it: the keys are computed first, for every element and
    in order; with [reverse] the list is reversed, sorted stably in
    ascending order and reversed again.  The ascending sort is an insertion
    sort on [<]; CPython's own algorithm differs from it only in which
    pairs it compares, which shows only when two keys do not compare. *)
Section Sort.
Context {A : Type}.

Fixpoint insert_keyed (x : value * A) (l : list (value * A))
    : result (list (value * A)) :=
  match l with
  | [] => Ok [x]
  | y :: l' =>
      b ← py_lt y.1 x.1;
      if b : bool then (r ← insert_keyed x l'; Ok (y :: r)) else Ok (x :: y :: l')
  end.

Fixpoint sort_keyed (l : list (value * A)) : result (list (value * A)) :=
  match l with
  | [] => Ok []
  | x :: l' => s ← sort_keyed l'; insert_keyed x s
  end.

Fixpoint keys_of (key : A → result value) (l : list A) : result (list (value * A)) :=
  match l with
  | [] => Ok []
  | x :: l' => k ← key x; ks ← keys_of key l'; Ok ((k, x) :: ks)
  end.

Definition list_sort (key : A → result value) (reversed : bool) (l : list A)
    : result (list A) :=
  keyed ← keys_of key l;
  sorted ← sort_keyed (if reversed then reverse keyed else keyed);
  Ok ((if reversed then reverse sorted else sorted).*2).
End Sort.

(** ** Metric histories

    The loop that the four history accessors share, word for word:
    [[
      metrics = {}
      for column in history.columns:
          if column not in ['_timestamp', '_runtime', '_step']:
              metrics[column] = history[column].tolist()
    ]] *)

Definition bookkeeping : list string := ["_timestamp"; "_runtime"; "_step"].

(** [frame[column].tolist()]: a label carried by one column selects that
    column; a label carried by several selects a frame, which has no
    [tolist]. *)
Definition column_tolist (frame : dataframe) (column : string) : result (list value) :=
  match filter (λ c, c.1 = column) frame with
  | [] => Err (KeyError column)
  | [(_, cells)] => Ok cells
  | _ :: _ :: _ => Err AttributeError
  end.

Fixpoint metrics_loop (frame : dataframe) (columns : list string)
    (metrics : gmap string (list value)) : result (gmap string (list value)) :=
  match columns with
  | [] => Ok metrics
  | column :: columns' =>
      if bool_decide (column ∉ bookkeeping)
      then cells ← column_tolist frame column;
           metrics_loop frame columns' (<[column := cells]> metrics)
      else metrics_loop frame columns' metrics
  end.

Definition history_metrics (frame : dataframe) : result (gmap string (list value)) :=
  metrics_loop frame frame.*1 ∅.

(** [f"{entity}/{project}"] and [f"{entity}/{project}/{run_id}"] *)
Definition project_path (entity project : string) : string :=
  (entity ++ "/" ++ project)%string.

Definition run_path (entity project run_id : string) : string :=
  (entity ++ "/" ++ project ++ "/" ++ run_id)%string.

(** ** src/get_wandb_runs.py *)
Module GetWandbRuns.

Definition run_dict (run : run_obj) : pydict :=
  [("id", run_id run); ("name", run_name run); ("state", run_state run);
   ("config", run_config run); ("summary", run_summary run);
   ("created_at", run_created_at run); ("url", run_url run)].

(** [all(run[key] == value for key, value in filters.items())]: the
    entries are visited in order and [all] stops at the first false. *)
Fixpoint all_match (run : pydict) (items : pydict) : result bool :=
  match items with
  | [] => Ok true
  | (key, v) :: items' =>
      x ← getitem run key;
      if py_eq x v then all_match run items' else Ok false
  end.

(** [search in run['name'] or search in run['tags']] *)
Definition search_match (search : string) (run : pydict) : result bool :=
  name ← getitem run "name";
  b ← py_in search name;
  if b : bool then Ok true else (tags ← getitem run "tags"; py_in search tags).

Definition apply_filters (filters : option pydict) (runs_data : list pydict)
    : result (list pydict) :=
  match filters with
  | Some ((_ :: _) as items) => filterM (λ run, all_match run items) runs_data
  | _ => Ok runs_data
  end.

Definition apply_search (search : option string) (runs_data : list pydict)
    : result (list pydict) :=
  match search with
  | Some ((String _ _) as s) => filterM (search_match s) runs_data
  | _ => Ok runs_data
  end.

Definition sort_runs (order : string) (runs_data : list pydict) : result (list pydict) :=
  list_sort (λ run, getitem run (lstrip_dash order)) (startswith_dash order) runs_data.

Definition fetch_runs (api : Api) (entity project : string) (per_page page : Z)
    : result (list pydict) :=
  for_each run_dict
    (api_runs api (project_path entity project)
       {[ "per_page" := VInt per_page; "page" := VInt page ]}).

Definition get_wandb_runs (api : Api) (entity project : string)
    (per_page page : Z) (order : string)
    (filters : option pydict) (search : option string) : result (list pydict) :=
  runs_data ← fetch_runs api entity project per_page page;
  runs_data ← apply_filters filters runs_data;
  runs_data ← apply_search search runs_data;
  sort_runs order runs_data.

Definition get_run_training_metrics (api : Api) (entity project run_id : string)
    : result (gmap string (list value)) :=
  run ← api_run api (run_path entity project run_id);
  history ← run_history run StreamDefault;
  history_metrics history.

Definition get_run_system_metrics (api : Api) (entity project run_id : string)
    : result (gmap string (list value)) :=
  run ← api_run api (run_path entity project run_id);
  system_metrics ← run_history run StreamEvents;
  history_metrics system_metrics.

Definition get_run_summary_metrics (api : Api) (entity project run_id : string)
    : result value :=
  run ← api_run api (run_path entity project run_id);
  Ok (run_summary run).

End GetWandbRuns.

(** ** src/wandb_mcp_server.py *)
Module WandbMcpServer.

(** [api.client.execute(query, variables or {})] *)
Definition execute_graphql_query (api : Api) (query : string)
    (variables : option pydict) : result value :=
  api_client_execute api query
    match variables with
    | Some ((_ :: _) as vars) => vars
    | _ => []
    end.

Definition project_dict (project : project_obj) : pydict :=
  [("name", project_name project); ("entity", project_entity project);
   ("description", project_description project);
   ("visibility", project_visibility project);
   ("created_at", project_created_at project);
   ("updated_at", project_updated_at project);
   ("tags", project_tags project)].

Definition get_entity_projects (api : Api) (entity : string) : result (list pydict) :=
  for_each project_dict (api_projects api entity).

(** The filter keys that become query parameters. *)
Definition forwarded : list string := ["state"; "tags"; "config"; "summary"].

Fixpoint add_filters (items : pydict) (query_params : gmap string value)
    : gmap string value :=
  match items with
  | [] => query_params
  | (key, v) :: items' =>
      add_filters items'
        (if bool_decide (key ∈ forwarded) then <[key := v]> query_params
         else query_params)
  end.

Definition build_query_params (per_page : Z) (order : string)
    (filters : option pydict) (search : option string) : gmap string value :=
  let query_params : gmap string value :=
    {[ "per_page" := VInt per_page; "order" := VStr order ]} in
  let query_params :=
    match filters with
    | Some ((_ :: _) as items) => add_filters items query_params
    | _ => query_params
    end in
  match search with
  | Some ((String _ _) as s) => <["search" := VStr s]> query_params
  | _ => query_params
  end.

Definition run_dict (run : run_obj) : pydict :=
  [("id", run_id run); ("name", run_name run); ("state", run_state run);
   ("config", run_config run); ("summary", run_summary run);
   ("created_at", run_created_at run); ("url", run_url run);
   ("tags", run_tags run)].

Definition get_wandb_runs (api : Api) (entity project : string) (per_page : Z)
    (order : string) (filters : option pydict) (search : option string)
    : result (list pydict) :=
  for_each run_dict
    (api_runs api (project_path entity project)
       (build_query_params per_page order filters search)).

Definition get_run_config (api : Api) (entity project run_id : string) : result value :=
  run ← api_run api (run_path entity project run_id);
  Ok (run_config run).

Definition get_run_training_metrics (api : Api) (entity project run_id : string)
    : result (gmap string (list value)) :=
  run ← api_run api (run_path entity project run_id);
  history ← run_history run StreamDefault;
  history_metrics history.

Definition get_run_system_metrics (api : Api) (entity project run_id : string)
    : result (gmap string (list value)) :=
  run ← api_run api (run_path entity project run_id);
  system_metrics ← run_history run StreamEvents;
  history_metrics system_metrics.

Definition get_run_summary_metrics (api : Api) (entity project run_id : string)
    : result value :=
  run ← api_run api (run_path entity project run_id);
  Ok (run_summary run).

End WandbMcpServer.

(** ** Concrete clients and runs used to exercise the definitions *)
Module Fixtures.

Definition frame10 : dataframe :=
  [("loss", VInt <$> [9; 8; 7; 6; 5; 4; 3; 2; 1; 0]%Z);
   ("accuracy", VInt <$> [0; 1; 2; 3; 4; 5; 6; 7; 8; 9]%Z);
   ("_step", VInt <$> [0; 1; 2; 3; 4; 5; 6; 7; 8; 9]%Z)].

Definition events : dataframe :=
  [("system.cpu", [VInt 11; VInt 12]); ("_timestamp", [VInt 100; VInt 101]);
   ("_runtime", [VInt 1; VInt 2])].

Definition mk_run (name state created_at : string) (tags : list string) : run_obj :=
  {| run_id := VStr ("id-" ++ name)%string; run_name := VStr name;
     run_state := VStr state; run_config := VDict [("lr", VInt 3)];
     run_summary := VDict [("loss", VInt 0)];
     run_created_at := VStr created_at;
     run_url := VStr ("https://wandb.ai/l2k2/finetune/runs/id-" ++ name)%string;
     run_tags := VList (VStr <$> tags);
     run_history := λ s, match s with
                         | StreamDefault => Ok frame10
                         | StreamEvents => Ok events
                         end |}.

Definition baseline : run_obj := mk_run "baseline-1" "finished" "2024-03-02T10:00:00" [].
Definition sweep : run_obj := mk_run "sweep-7" "running" "2024-03-01T09:00:00" ["baseline"].
Definition ablation : run_obj := mk_run "ablation" "finished" "2024-03-03T08:00:00" [].
Definition rerun : run_obj := mk_run "ablation" "crashed" "2024-03-01T09:00:00" [].

Definition demo_project : project_obj :=
  {| project_name := VStr "finetune"; project_entity := VStr "l2k2";
     project_description := VNone; project_visibility := VStr "private";
     project_created_at := VStr "2024-01-01T00:00:00";
     project_updated_at := VStr "2024-03-03T08:00:00";
     project_tags := VList [] |}.

Definition not_found (what : string) : exn :=
  ClientError "CommError" ("Could not find " ++ what)%string.

(** A client that knows one project, [l2k2/finetune], with the given
    runs, and answers everything else the way the wandb client does. *)
Definition run_key (run : run_obj) : string :=
  match run_id run with
  | VStr i => ("l2k2/finetune/" ++ i)%string
  | _ => ""
  end.

Definition client (runs : list run_obj) : Api :=
  {| api_runs := λ path _,
       if String.eqb path "l2k2/finetune" then Listing runs None
       else Listing [] (Some (not_found ("project " ++ path)%string));
     api_projects := λ entity,
       if String.eqb entity "l2k2" then Listing [demo_project] None
       else Listing [] (Some (not_found ("entity " ++ entity)%string));
     api_run := λ path,
       match List.find (λ run, String.eqb (run_key run) path) runs with
       | Some run => Ok run
       | None => Err (not_found ("run " ++ path)%string)
       end;
     api_client_execute := λ query variables,
       Ok (VDict [("data", VDict [("query", VStr query);
                                  ("variables", VDict variables)])]) |}.

End Fixtures.

(** A history in which two columns carry one label, and a run that has it. *)
Module MoreFixtures.

Definition twice : dataframe :=
  [("loss", [VInt 1]); ("_step", [VInt 0]); ("loss", [VInt 2])].

Definition relogged : run_obj :=
  {| run_id := VStr "id-relogged"; run_name := VStr "relogged";
     run_state := VStr "finished"; run_config := VDict [];
     run_summary := VDict []; run_created_at := VStr "2024-03-04T08:00:00";
     run_url := VStr "https://wandb.ai/l2k2/finetune/runs/id-relogged";
     run_tags := VList []; run_history := λ _, Ok twice |}.

End MoreFixtures.

(** ** Vocabulary of the statements *)

(** A test that came out true (it neither raised nor came out false). *)
Definition holds (r : result bool) : bool :=
  match r with
  | Ok true => true
  | _ => false
  end.

Definition is_Err {A : Type} (r : result A) : Prop := ∃ e, r = Err e.

(** Every two neighbours of a sequence, in their order, are related. *)
Definition adjacent {A : Type} (R : A → A → Prop) (l : list A) : Prop :=
  ∀ i a b, l !! i = Some a → l !! S i = Some b → R a b.

(** The sort key of an element is the string [k]. *)
Definition has_key {A : Type} (key : A → result value) (k : string) (x : A) : bool :=
  match key x with
  | Ok v => py_eq v (VStr k)
  | Err _ => false
  end.

(** What two neighbours of a sorted list satisfy: [a >= b] on their keys
    when the sort is reversed, [a <= b] otherwise. *)
Definition in_order {A : Type} (key : A → result value) (reversed : bool)
    (a b : A) : Prop :=
  ∃ ka kb, key a = Ok ka ∧ key b = Ok kb ∧
           (if reversed then py_ge ka kb else py_le ka kb) = Ok true.

(** On the decorated list the sort works on: the key is a string, two keys
    are in ascending order, the key is [k], the key is the element's own. *)
Definition str_key {A : Type} (x : value * A) : Prop := ∃ s, x.1 = VStr s.
Definition key_le {A : Type} (x y : value * A) : Prop := py_le x.1 y.1 = Ok true.
Definition key_is {A : Type} (k : string) (x : value * A) : bool := py_eq x.1 (VStr k).
Definition keyed_by {A : Type} (key : A → result value) (x : value * A) : Prop :=
  key x.2 = Ok x.1.

(** The run objects the local listing iterates over, and the keys of the
    mapping it builds for each. *)
Definition fetched (api : Api) (entity project : string) (per_page page : Z)
    : list run_obj :=
  yielded (api_runs api (project_path entity project)
             {[ "per_page" := VInt per_page; "page" := VInt page ]}).

Definition local_keys : list string :=
  ["id"; "name"; "state"; "config"; "summary"; "created_at"; "url"].

(** The sequence the local listing hands to its sort. *)
Definition kept_runs (api : Api) (entity project : string) (per_page page : Z)
    (filters : option pydict) (search : option string) : result (list pydict) :=
  runs_data ← GetWandbRuns.fetch_runs api entity project per_page page;
  runs_data ← GetWandbRuns.apply_filters filters runs_data;
  GetWandbRuns.apply_search search runs_data.

(** [run[order.lstrip('-')]], the sort key of the local listing. *)
Definition sort_key (order : string) (run : pydict) : result value :=
  getitem run (lstrip_dash order).

(** A run object whose attributes are the values a filter mapping asks
    for (None where it asks for nothing). *)
Definition run_matching (items : pydict) : run_obj :=
  let attr k := default VNone (assoc k items) in
  {| run_id := attr "id"; run_name := attr "name"; run_state := attr "state";
     run_config := attr "config"; run_summary := attr "summary";
     run_created_at := attr "created_at"; run_url := attr "url";
     run_tags := VNone; run_history := λ _, Ok [] |}.

(** The four history accessors, each with the stream it reads. *)
Definition history_accessors
    : list ((Api → string → string → string → result (gmap string (list value)))
            * stream) :=
  [(GetWandbRuns.get_run_training_metrics, StreamDefault);
   (GetWandbRuns.get_run_system_metrics, StreamEvents);
   (WandbMcpServer.get_run_training_metrics, StreamDefault);
   (WandbMcpServer.get_run_system_metrics, StreamEvents)].

(** The query parameters the server variant sets whatever the filters. *)
Definition own_params : list string := ["per_page"; "order"; "search"].


(** [run[k] == v] came out true. *)
Definition field_equals (run : pydict) (k : string) (v : value) : Prop :=
  ∃ x, getitem run k = Ok x ∧ py_eq x v = true.

(** The verdict of the local filter step on one run mapping: an absent or
    empty filter mapping lets every run pass. *)
Definition passes (filters : option pydict) (run : pydict) : bool :=
  match filters with
  | Some ((_ :: _) as items) => holds (GetWandbRuns.all_match run items)
  | _ => true
  end.

(** A mapping holds a value equal to the given one under every key of a
    filter mapping (a key it lacks counts as unequal).  This is said
    without the filter step's own test: no order of evaluation, no
    exception. *)
Definition equals_all (items : pydict) (run : pydict) : bool :=
  forallb (λ kv, match assoc kv.1 run with
                 | Some x => py_eq x kv.2
                 | None => false
                 end) items.


(** [n] dashes in front of a string. *)
Definition dashes (n : nat) (s : string) : string := Nat.iter n (String "-") s.

Definition is_dict (v : value) : Prop := ∃ d, v = VDict d.

(** The columns of a frame that a metric history keeps. *)
Definition metric_columns (frame : dataframe) : dataframe :=
  filter (λ c, c.1 ∉ bookkeeping) frame.

(** * Properties *)

(** ** The result monad *)

Lemma bind_Ok {A B : Type} (m : result A) (f : A → result B) (b : B) :
  m ≫= f = Ok b ↔ ∃ a, m = Ok a ∧ f a = Ok b.
Proof.
  destruct m as [a|e]; simpl; split.
  - intros H. by exists a.
  - by intros (a' & [= <-] & H).
  - discriminate.
  - by intros (a' & [=] & _).
Qed.

(** Splits a hypothesis [x ← m; k = Ok r] into its two steps. *)
Ltac bind_inv H :=
  let a := fresh "a" in
  let Ha := fresh "Ha" in
  apply bind_Ok in H as (a & Ha & H).

Lemma holds_true (r : result bool) : holds r ↔ r = Ok true.
Proof. destruct r as [[]|]; simpl; naive_solver. Qed.

(** ** Loops and comprehensions *)

Lemma collect_spec {A B : Type} (f : A → B) items stop (acc : list B) :
  collect f items stop acc =
  match stop with
  | None => Ok (acc ++ (f <$> items))
  | Some e => Err e
  end.
Proof.
  revert acc. induction items as [|x items IH]; intros acc; simpl.
  - destruct stop; by rewrite ?app_nil_r.
  - rewrite IH. destruct stop; [done|]. by rewrite <- app_assoc.
Qed.

Lemma for_each_spec {A B : Type} (f : A → B) (it : listing A) :
  for_each f it =
  match raised it with
  | None => Ok (f <$> yielded it)
  | Some e => Err e
  end.
Proof. unfold for_each. by rewrite collect_spec. Qed.

Lemma filterM_Ok {A : Type} (p : A → result bool) (l kept : list A) :
  filterM p l = Ok kept →
  kept = filter (λ x, holds (p x)) l ∧ Forall (λ x, ∃ b, p x = Ok b) l.
Proof.
  revert kept. induction l as [|x l IH]; intros kept H; simpl in *.
  - injection H as <-. by split.
  - bind_inv H. bind_inv H. injection H as <-.
    destruct (IH _ Ha0) as [-> Hall]. split.
    + rewrite filter_cons, Ha. by destruct a.
    + constructor; eauto.
Qed.

Lemma filterM_Err {A : Type} (p : A → result bool) (l : list A) (x : A) :
  x ∈ l → is_Err (p x) → is_Err (filterM p l).
Proof.
  intros Hin [e He]. induction l as [|y l IH]; [by apply not_elem_of_nil in Hin|].
  simpl. apply elem_of_cons in Hin as [<-|Hin].
  - rewrite He. by exists e.
  - destruct (p y) as [b|e']; simpl; [|by exists e'].
    destruct (IH Hin) as [e' ->]. by exists e'.
Qed.

Lemma filterM_singleton {A : Type} (p : A → result bool) (x : A) :
  filterM p [x] = Ok [x] → p x = Ok true.
Proof. simpl. by destruct (p x) as [[]|]. Qed.

Lemma filterM_total {A : Type} (p : A → result bool) (l : list A) :
  Forall (λ x, ∃ b, p x = Ok b) l →
  filterM p l = Ok (filter (λ x, holds (p x)) l).
Proof.
  induction 1 as [|x l [b Hb] _ IH]; simpl; [done|].
  rewrite Hb, IH, filter_cons, Hb. simpl. by destruct b.
Qed.

(** ** Strings *)

Lemma ltb_false_leb (a b : string) : String.ltb b a = false → String.leb a b = true.
Proof.
  unfold String.ltb, String.leb. rewrite (String.compare_antisym a b).
  by destruct (String.compare b a).
Qed.

Lemma ltb_true_leb (a b : string) : String.ltb a b = true → String.leb a b = true.
Proof. unfold String.ltb, String.leb. by destruct (String.compare a b). Qed.

Lemma ltb_true_neq (a b : string) : String.ltb a b = true → a ≠ b.
Proof.
  unfold String.ltb. intros H ->.
  pose proof (String.compare_antisym b b) as Hb.
  by destruct (String.compare b b).
Qed.

(** ** Neighbours *)

Lemma adjacent_nil {A : Type} (R : A → A → Prop) : adjacent R [].
Proof. by intros i a b ?. Qed.

Lemma adjacent_singleton {A : Type} (R : A → A → Prop) (x : A) : adjacent R [x].
Proof. by intros [|i] a b ? ?. Qed.

Lemma adjacent_cons {A : Type} (R : A → A → Prop) (x y : A) (l : list A) :
  adjacent R (x :: y :: l) ↔ R x y ∧ adjacent R (y :: l).
Proof.
  split.
  - intros H. split; [by apply (H 0)|]. intros i a b Ha Hb. by apply (H (S i)).
  - intros [Hxy H] [|i] a b Ha Hb; simpl in *.
    + by simplify_eq.
    + by apply (H i).
Qed.

Lemma adjacent_reverse {A : Type} (R : A → A → Prop) (l : list A) :
  adjacent R l → adjacent (flip R) (reverse l).
Proof.
  intros H i a b Ha Hb.
  assert (S i < length l) as Hlt.
  { apply lookup_lt_Some in Hb. by rewrite length_reverse in Hb. }
  rewrite reverse_lookup in Ha by lia. rewrite reverse_lookup in Hb by lia.
  apply (H (length l - S (S i)) b a); [done|].
  by replace (S (length l - S (S i))) with (length l - S i) by lia.
Qed.

Lemma adjacent_fmap {A B : Type} (f : A → B) (R : B → B → Prop) (l : list A) :
  adjacent (λ a b, R (f a) (f b)) l → adjacent R (f <$> l).
Proof.
  intros H i a b Ha Hb. rewrite list_lookup_fmap in Ha, Hb.
  destruct (l !! i) as [a'|] eqn:Ea; [|done].
  destruct (l !! S i) as [b'|] eqn:Eb; [|done].
  simpl in *. simplify_eq. by apply (H i).
Qed.

Lemma adjacent_impl {A : Type} (R S : A → A → Prop) (l : list A) :
  (∀ a b, a ∈ l → b ∈ l → R a b → S a b) → adjacent R l → adjacent S l.
Proof.
  intros HRS H i a b Ha Hb.
  apply HRS; [by eapply list_elem_of_lookup_2..|by apply (H i)].
Qed.

(** ** The sort on string keys

    Between strings [<] never raises and is a strict total order, so the
    sort returns; what it returns is ordered, and elements with one key
    keep the order they came in. *)
Section SortFacts.
Context {A : Type}.
Implicit Types (x y z : value * A) (l : list (value * A)).

Lemma insert_keyed_perm x l r : insert_keyed x l = Ok r → r ≡ₚ x :: l.
Proof.
  revert r. induction l as [|y l IH]; intros r H; simpl in H.
  - by injection H as <-.
  - bind_inv H. destruct a.
    + bind_inv H. injection H as <-. rewrite (IH _ Ha0). apply Permutation_swap.
    + by injection H as <-.
Qed.

Lemma sort_keyed_perm l s : sort_keyed l = Ok s → s ≡ₚ l.
Proof.
  revert s. induction l as [|x l IH]; intros s H; simpl in H.
  - by injection H as <-.
  - bind_inv H. rewrite (insert_keyed_perm _ _ _ H). by rewrite (IH _ Ha).
Qed.

Lemma insert_keyed_total x l :
  str_key x → Forall str_key l → ∃ r, insert_keyed x l = Ok r.
Proof.
  intros [sx Hx]. induction 1 as [|y l [sy Hy] _ [r IH]]; simpl; [by eexists|].
  rewrite Hy, Hx. simpl. destruct (String.ltb sy sx); [|by eexists].
  rewrite IH. by eexists.
Qed.

Lemma sort_keyed_total l : Forall str_key l → ∃ s, sort_keyed l = Ok s.
Proof.
  induction 1 as [|x l Hx Hl [s IH]]; simpl; [by eexists|].
  rewrite IH. simpl. apply insert_keyed_total; [done|].
  by rewrite (sort_keyed_perm _ _ IH).
Qed.

Lemma insert_keyed_adjacent x l r :
  str_key x → Forall str_key l → insert_keyed x l = Ok r →
  (adjacent key_le l → adjacent key_le r) ∧
  (∀ z, key_le z x → adjacent key_le (z :: l) → adjacent key_le (z :: r)).
Proof.
  intros [sx Hx] Hl. revert r.
  induction Hl as [|y l [sy Hy] Hl IH]; intros r H; simpl in H.
  - injection H as <-. split; [intros; apply adjacent_singleton|].
    intros z Hz _. apply adjacent_cons. split; [done|apply adjacent_singleton].
  - rewrite Hy, Hx in H. simpl in H.
    destruct (String.ltb sy sx) eqn:Hlt.
    + bind_inv H. injection H as <-. destruct (IH _ Ha) as [_ IH2].
      assert (key_le y x) as Hyx.
      { unfold key_le. rewrite Hy, Hx. simpl. by rewrite ltb_true_leb. }
      split.
      * intros Hadj. by apply IH2.
      * intros z Hz Hadj. apply adjacent_cons in Hadj as [Hzy Hadj].
        apply adjacent_cons. split; [done|]. by apply IH2.
    + injection H as <-.
      assert (key_le x y) as Hxy.
      { unfold key_le. rewrite Hy, Hx. simpl. by rewrite ltb_false_leb. }
      split.
      * intros Hadj. by apply adjacent_cons.
      * intros z Hz Hadj. apply adjacent_cons in Hadj as [Hzy Hadj].
        apply adjacent_cons. split; [done|]. by apply adjacent_cons.
Qed.

Lemma sort_keyed_adjacent l s :
  Forall str_key l → sort_keyed l = Ok s → adjacent key_le s.
Proof.
  intros Hl. revert s. induction Hl as [|x l Hx Hl IH]; intros s H; simpl in H.
  - injection H as <-. apply adjacent_nil.
  - bind_inv H. eapply insert_keyed_adjacent; [done| |done|by apply IH].
    by rewrite (sort_keyed_perm _ _ Ha).
Qed.

Lemma insert_keyed_stable k x l r :
  str_key x → Forall str_key l → insert_keyed x l = Ok r →
  filter (key_is k) r = filter (key_is k) (x :: l).
Proof.
  intros [sx Hx] Hl. revert r.
  induction Hl as [|y l [sy Hy] Hl IH]; intros r H; simpl in H.
  - by injection H as <-.
  - rewrite Hy, Hx in H. simpl in H.
    destruct (String.ltb sy sx) eqn:Hlt; [|by injection H as <-].
    bind_inv H. injection H as <-.
    rewrite filter_cons, (IH _ Ha), !filter_cons.
    destruct (decide (key_is k y)) as [Ky|?], (decide (key_is k x)) as [Kx|?];
      try done.
    unfold key_is in Ky, Kx. rewrite Hy in Ky. rewrite Hx in Kx. simpl in *.
    apply Is_true_true, String.eqb_eq in Ky, Kx. subst.
    by apply ltb_true_neq in Hlt.
Qed.

Lemma sort_keyed_stable k l s :
  Forall str_key l → sort_keyed l = Ok s →
  filter (key_is k) s = filter (key_is k) l.
Proof.
  intros Hl. revert s. induction Hl as [|x l Hx Hl IH]; intros s H; simpl in H.
  - by injection H as <-.
  - bind_inv H. rewrite (insert_keyed_stable k x a s); [|done| |done].
    + by rewrite !filter_cons, (IH _ Ha).
    + by rewrite (sort_keyed_perm _ _ Ha).
Qed.
End SortFacts.

Section ListSortFacts.
Context {A : Type} (key : A → result value).

Lemma keys_of_Ok l keyed :
  keys_of key l = Ok keyed → keyed.*2 = l ∧ Forall (keyed_by key) keyed.
Proof.
  revert keyed. induction l as [|x l IH]; intros keyed H; simpl in H.
  - by injection H as <-.
  - bind_inv H. bind_inv H. injection H as <-.
    destruct (IH _ Ha0) as [<- Hall]. split; [done|]. by constructor.
Qed.

Lemma keys_of_total l :
  Forall (λ x, ∃ v, key x = Ok v) l → ∃ keyed, keys_of key l = Ok keyed.
Proof.
  induction 1 as [|x l [v Hv] _ [keyed IH]]; simpl; [by eexists|].
  rewrite Hv, IH. by eexists.
Qed.

Lemma filter_keyed_fmap k (l : list (value * A)) :
  Forall (keyed_by key) l → (filter (key_is k) l).*2 = filter (has_key key k) l.*2.
Proof.
  induction 1 as [|x l Hx _ IH]; [done|].
  rewrite fmap_cons, !filter_cons.
  assert (has_key key k x.2 = key_is k x) as Heq.
  { unfold has_key, key_is. by rewrite Hx. }
  destruct (decide (key_is k x)) as [K|K], (decide (has_key key k x.2)) as [K'|K'];
    rewrite Heq in K'; try done.
  by rewrite fmap_cons, IH.
Qed.

Lemma list_sort_str reversed l :
  Forall (λ x, ∃ s, key x = Ok (VStr s)) l →
  ∃ sorted, list_sort key reversed l = Ok sorted ∧
            sorted ≡ₚ l ∧
            adjacent (in_order key reversed) sorted ∧
            ∀ k, filter (has_key key k) sorted = filter (has_key key k) l.
Proof.
  intros Hstr. unfold list_sort.
  destruct (keys_of_total l) as [keyed Hkeyed].
  { eapply Forall_impl; [done|]. intros x [s Hs]. by eexists. }
  destruct (keys_of_Ok _ _ Hkeyed) as [Hl Hby]. rewrite Hkeyed. simpl.
  assert (Forall str_key keyed) as Hsk.
  { apply Forall_forall. intros x Hx.
    assert (x.2 ∈ l) as Hin by (rewrite <- Hl; by apply list_elem_of_fmap_2).
    destruct (proj1 (Forall_forall _ _) Hstr _ Hin) as [s Hs].
    rewrite (proj1 (Forall_forall _ _) Hby _ Hx) in Hs. injection Hs as Hs.
    by exists s. }
  set (input := if reversed then reverse keyed else keyed).
  assert (input ≡ₚ keyed) as Hperm.
  { unfold input. destruct reversed; [apply reverse_Permutation|done]. }
  assert (Forall str_key input) as Hsk' by by rewrite Hperm.
  destruct (sort_keyed_total _ Hsk') as [s Hs]. rewrite Hs. simpl.
  pose proof (sort_keyed_perm _ _ Hs) as Hps.
  pose proof (sort_keyed_adjacent _ _ Hsk' Hs) as Hadj.
  set (out := if reversed then reverse s else s).
  assert (out ≡ₚ keyed) as Hpo.
  { unfold out. destruct reversed; [rewrite reverse_Permutation|]; by rewrite Hps. }
  assert (Forall (keyed_by key) out) as Hbo by by rewrite Hpo.
  eexists. split; [done|]. split; [|split].
  - by rewrite Hpo, Hl.
  - apply adjacent_fmap.
    apply adjacent_impl with
      (R := if reversed then flip key_le else key_le).
    + intros a b Ha Hb Hab.
      exists a.1, b.1. rewrite Forall_forall in Hbo.
      split; [by apply Hbo|]. split; [by apply Hbo|].
      by destruct reversed.
    + unfold out. destruct reversed; [by apply adjacent_reverse|done].
  - intros k. rewrite <- Hl, <- !filter_keyed_fmap by done. f_equal.
    unfold out, input in *. destruct reversed.
    + rewrite filter_reverse, (sort_keyed_stable k _ _ Hsk' Hs), filter_reverse.
      apply reverse_involutive.
    + by apply sort_keyed_stable.
Qed.
End ListSortFacts.

Lemma list_sort_perm {A : Type} (key : A → result value) reversed (l sorted : list A) :
  list_sort key reversed l = Ok sorted → sorted ≡ₚ l.
Proof.
  unfold list_sort. intros H. bind_inv H. bind_inv H. injection H as <-.
  destruct (keys_of_Ok _ _ _ Ha) as [<- _].
  apply sort_keyed_perm in Ha0. apply fmap_Permutation.
  destruct reversed; rewrite ?reverse_Permutation, Ha0, ?reverse_Permutation; done.
Qed.

(** ** The local run listing *)
Module LocalListing.
Import GetWandbRuns.

Lemma run_dict_keys run : (run_dict run).*1 = local_keys.
Proof. done. Qed.

Lemma getitem_Ok d k x : getitem d k = Ok x ↔ assoc k d = Some x.
Proof. unfold getitem. destruct (assoc k d); naive_solver. Qed.

Lemma assoc_None d k : assoc k d = None ↔ k ∉ d.*1.
Proof.
  induction d as [|[k' v] d IH]; simpl.
  - split; [intros _; apply not_elem_of_nil|done].
  - rewrite not_elem_of_cons. destruct (String.eqb_spec k k') as [->|Hne].
    + split; [done|]. by intros [? _].
    + rewrite IH. tauto.
Qed.

Lemma getitem_total d k : k ∈ d.*1 → ∃ x, getitem d k = Ok x.
Proof.
  intros Hin. unfold getitem. destruct (assoc k d) eqn:E; [by eexists|].
  by apply assoc_None in E.
Qed.

Lemma getitem_KeyError d k : k ∉ d.*1 → getitem d k = Err (KeyError k).
Proof. intros Hin. unfold getitem. by rewrite (proj2 (assoc_None d k) Hin). Qed.

Lemma all_match_true run items :
  all_match run items = Ok true → ∀ k v, (k, v) ∈ items → field_equals run k v.
Proof.
  induction items as [|[k' v'] items IH]; intros H k v Hin.
  - by apply not_elem_of_nil in Hin.
  - simpl in H. bind_inv H. destruct (py_eq a v') eqn:E; [|done].
    apply elem_of_cons in Hin as [[= -> ->]|Hin]; [by exists a|by apply IH].
Qed.

Lemma all_match_total run items :
  (∀ k, k ∈ items.*1 → k ∈ run.*1) → ∃ b, all_match run items = Ok b.
Proof.
  induction items as [|[k v] items IH]; intros Hk; simpl; [by eexists|].
  destruct (getitem_total run k) as [x ->]; [apply Hk; left|]. simpl.
  destruct (py_eq x v); [|by eexists]. apply IH. intros k' Hk'. apply Hk. by right.
Qed.

Lemma apply_filters_Ok filters runs_data kept :
  apply_filters filters runs_data = Ok kept →
  kept ⊆ runs_data ∧
  ∀ e, e ∈ kept → ∀ k v, (k, v) ∈ default [] filters → field_equals e k v.
Proof.
  destruct filters as [[|kv items]|]; simpl; intros H.
  1,3: injection H as <-; split; [done|]; intros e _ k v Hin;
       by apply not_elem_of_nil in Hin.
  apply filterM_Ok in H as [-> _]. split.
  - intros e. rewrite list_elem_of_filter. tauto.
  - intros e [He%holds_true _]%list_elem_of_filter k v Hin.
    by apply (all_match_true e (kv :: items)).
Qed.

Lemma apply_search_Ok search runs_data kept :
  apply_search search runs_data = Ok kept →
  kept = match search with
         | Some ((String _ _) as s) => filter (λ e, holds (search_match s e)) runs_data
         | _ => runs_data
         end.
Proof.
  destruct search as [[|c s]|]; simpl; intros H; try by injection H.
  by apply filterM_Ok in H as [-> _].
Qed.

Lemma apply_search_subseteq search runs_data kept :
  apply_search search runs_data = Ok kept → kept ⊆ runs_data.
Proof.
  intros ->%apply_search_Ok. destruct search as [[|c s]|]; try done.
  intros e. rewrite list_elem_of_filter. tauto.
Qed.

Lemma fetch_runs_Ok api entity project per_page page runs_data :
  fetch_runs api entity project per_page page = Ok runs_data →
  runs_data = run_dict <$> fetched api entity project per_page page.
Proof.
  unfold fetch_runs, fetched. rewrite for_each_spec.
  destruct (raised _); [done|]. by intros [= <-].
Qed.

Lemma get_wandb_runs_kept api entity project per_page page order filters search :
  get_wandb_runs api entity project per_page page order filters search =
  kept_runs api entity project per_page page filters search ≫= sort_runs order.
Proof.
  unfold get_wandb_runs, kept_runs.
  destruct (fetch_runs _ _ _ _ _) as [l|]; simpl; [|done].
  by destruct (apply_filters _ _).
Qed.

(** C1: every element of a sequence the local listing returns equals the
    given value under every key of the filter mapping, so no run failing
    one of the equalities is in it; the elements are mappings of fetched
    runs; and when every filter key is a key of the run mappings the
    filter step itself never raises. *)
Theorem local_filters_exact api entity project per_page page order filters search R :
  get_wandb_runs api entity project per_page page order filters search = Ok R →
  (∀ e, e ∈ R → ∀ k v, (k, v) ∈ default [] filters → field_equals e k v) ∧
  (∀ e, e ∈ R → ∃ run, run ∈ fetched api entity project per_page page ∧
                       e = run_dict run) ∧
  ((∀ k, k ∈ (default [] filters).*1 → k ∈ local_keys) →
   ∀ runs, ∃ kept, apply_filters filters (run_dict <$> runs) = Ok kept).
Proof.
  intros H. unfold get_wandb_runs in H. bind_inv H. bind_inv H. bind_inv H.
  apply list_sort_perm in H. apply fetch_runs_Ok in Ha as ->.
  apply apply_search_subseteq in Ha1.
  apply apply_filters_Ok in Ha0 as [Hsub Hall].
  split; [|split].
  - intros e He. apply Hall, Ha1. by rewrite <- H.
  - intros e He. rewrite H in He. apply Ha1, Hsub in He.
    apply list_elem_of_fmap in He as (run & -> & Hrun). by exists run.
  - intros Hkeys runs. destruct filters as [[|kv items]|]; try by eexists.
    unfold apply_filters. rewrite filterM_total; [by eexists|].
    apply Forall_forall. intros e (run & -> & _)%list_elem_of_fmap.
    by apply (all_match_total (run_dict run) (kv :: items)).
Qed.

(** C3: when the field named by [order] holds strings, neighbours (a, b)
    of the returned sequence satisfy [a >= b] on that field if [order]
    starts with a dash and [a <= b] if it does not; the result is a
    rearrangement of the sequence handed to the sort in which the runs
    with one key keep their relative order.  For ["-created_at"] this is
    [a.created_at >= b.created_at], for ["name"] it is [a.name <= b.name]. *)
Theorem local_sort_order api entity project per_page page order filters search R :
  get_wandb_runs api entity project per_page page order filters search = Ok R →
  Forall (λ e, ∃ s, sort_key order e = Ok (VStr s)) R →
  adjacent (in_order (sort_key order) (startswith_dash order)) R ∧
  (∃ kept, kept_runs api entity project per_page page filters search = Ok kept ∧
           R ≡ₚ kept ∧
           ∀ k, filter (has_key (sort_key order) k) R =
                filter (has_key (sort_key order) k) kept) ∧
  (order = "-created_at" →
   adjacent (λ a b, ∃ ka kb, getitem a "created_at" = Ok ka ∧
                             getitem b "created_at" = Ok kb ∧
                             py_ge ka kb = Ok true) R) ∧
  (order = "name" →
   adjacent (λ a b, ∃ ka kb, getitem a "name" = Ok ka ∧
                             getitem b "name" = Ok kb ∧
                             py_le ka kb = Ok true) R).
Proof.
  intros H Hstr. rewrite get_wandb_runs_kept in H. bind_inv H.
  pose proof (list_sort_perm _ _ _ _ H) as Hperm.
  destruct (list_sort_str (sort_key order) (startswith_dash order) a)
    as (sorted & Hsorted & _ & Hadj & Hstable).
  { by rewrite <- Hperm. }
  unfold sort_runs in H. change (λ run, getitem run (lstrip_dash order))
    with (sort_key order) in H.
  rewrite Hsorted in H. injection H as ->.
  split; [done|]. split; [by exists a|]. split; intros ->; exact Hadj.
Qed.

Lemma contains_empty n : contains "" n = true.
Proof. by destruct n. Qed.

Lemma search_match_miss s run n :
  run_name run = VStr n → contains s n = false →
  search_match s (run_dict run) = Err (KeyError "tags").
Proof. intros Hn Hs. unfold search_match. simpl. rewrite Hn. simpl. by rewrite Hs. Qed.

Lemma assoc_NoDup (l : pydict) k v : NoDup l.*1 → (k, v) ∈ l → assoc k l = Some v.
Proof.
  induction l as [|[k' v'] l IH]; intros Hnd Hin; [by apply not_elem_of_nil in Hin|].
  apply NoDup_cons in Hnd as [Hk' Hnd]. simpl.
  apply elem_of_cons in Hin as [[= <- <-]|Hin]; [by rewrite String.eqb_refl|].
  destruct (String.eqb_spec k k') as [->|_]; [|by apply IH].
  destruct Hk'. by apply (list_elem_of_fmap_2 fst _ (k', v)).
Qed.

Lemma run_matching_field items k :
  k ∈ local_keys →
  assoc k (run_dict (run_matching items)) = Some (default VNone (assoc k items)).
Proof.
  unfold local_keys. intros H.
  repeat (apply elem_of_cons in H as [->|H]; [done|]).
  by apply not_elem_of_nil in H.
Qed.

Lemma all_match_prefix run pre post :
  Forall (λ kv, field_equals run kv.1 kv.2) pre →
  all_match run (pre ++ post) = all_match run post.
Proof.
  induction 1 as [|[k v] pre (x & Hx & Heq) _ IH]; [done|].
  simpl in *. rewrite Hx. simpl. by rewrite Heq.
Qed.

Lemma first_unknown_key (items : pydict) :
  ¬ (∀ k, k ∈ items.*1 → k ∈ local_keys) →
  ∃ pre k v post, items = pre ++ (k, v) :: post ∧
                  (∀ k', k' ∈ pre.*1 → k' ∈ local_keys) ∧ k ∉ local_keys.
Proof.
  induction items as [|[k v] items IH]; intros Hnot.
  - destruct Hnot. intros k Hk. by apply not_elem_of_nil in Hk.
  - destruct (decide (k ∈ local_keys)) as [Hk|Hk].
    + destruct IH as (pre & k' & v' & post & -> & Hpre & Hk').
      { intros Hall. apply Hnot. intros k' [->|Hk']%elem_of_cons; auto. }
      exists ((k, v) :: pre), k', v', post. split; [done|]. split; [|done].
      intros k'' [->|Hk'']%elem_of_cons; auto.
    + exists [], k, v, items. split; [done|]. split; [|done].
      intros k' Hk'. by apply not_elem_of_nil in Hk'.
Qed.

Lemma all_match_total_iff items :
  NoDup items.*1 → Forall (λ kv, py_eq kv.2 kv.2 = true) items →
  (∀ run, ∃ b, all_match (run_dict run) items = Ok b) ↔
  (∀ k, k ∈ items.*1 → k ∈ local_keys).
Proof.
  intros Hnd Hrefl. split.
  - intros Htotal.
    destruct (decide (Forall (λ k, k ∈ local_keys) items.*1)) as [Hall|Hnot].
    { by apply Forall_forall. }
    destruct (first_unknown_key items) as (pre & k & v & post & -> & Hpre & Hk).
    { intros Hall. by apply Hnot, Forall_forall. }
    destruct (Htotal (run_matching (pre ++ (k, v) :: post))) as [b Hb].
    rewrite all_match_prefix in Hb.
    + simpl in Hb. by rewrite getitem_KeyError in Hb.
    + apply Forall_forall. intros [k' v'] Hin. simpl.
      assert ((k', v') ∈ pre ++ (k, v) :: post) as Hin'.
      { apply elem_of_app. by left. }
      exists v'. split.
      * apply getitem_Ok. rewrite run_matching_field.
        -- by rewrite (assoc_NoDup _ k' v').
        -- apply Hpre. by apply (list_elem_of_fmap_2 fst _ (k', v')).
      * rewrite Forall_forall in Hrefl. by apply (Hrefl (k', v')).
  - intros Hkeys run. by apply all_match_total.
Qed.

Lemma apply_filters_singleton filters d runs_data kept :
  apply_filters filters [d] = Ok [d] → d ∈ runs_data →
  apply_filters filters runs_data = Ok kept → d ∈ kept.
Proof.
  destruct filters as [[|kv items]|]; intros Hd Hin H;
    try (injection H as <-; done).
  unfold apply_filters in *. apply filterM_Ok in H as [-> _].
  apply list_elem_of_filter. split; [|done].
  apply holds_true. by apply (filterM_singleton (λ run, all_match run (kv :: items))).
Qed.

(** C8 as amended: the mapping built for a run has exactly the seven
    keys and none is 'tags'; so for a run whose name does not contain the
    search string the search test raises KeyError('tags'), and a call
    fails whenever such a run is fetched and passes the filter step;
    and the filter step returns a verdict on every run exactly when
    every filter key is one of the seven. *)
Theorem local_search_raises api entity project per_page page order filters s run n :
  run ∈ fetched api entity project per_page page →
  run_name run = VStr n → contains s n = false →
  apply_filters filters [run_dict run] = Ok [run_dict run] →
  (run_dict run).*1 = local_keys ∧ assoc "tags" (run_dict run) = None ∧
  search_match s (run_dict run) = Err (KeyError "tags") ∧
  is_Err (get_wandb_runs api entity project per_page page order filters (Some s)) ∧
  ∀ items, NoDup items.*1 → Forall (λ kv, py_eq kv.2 kv.2 = true) items →
           (∀ run', ∃ b, all_match (run_dict run') items = Ok b) ↔
           (∀ k, k ∈ items.*1 → k ∈ local_keys).
Proof.
  intros Hrun Hn Hs Hpass. split; [done|]. split; [done|].
  pose proof (search_match_miss _ _ _ Hn Hs) as Hmiss. split; [done|].
  split; [|apply all_match_total_iff].
  unfold get_wandb_runs, fetch_runs. rewrite for_each_spec.
  fold (fetched api entity project per_page page).
  destruct (raised _) as [e|] eqn:Hraised; [by exists e|]. simpl.
  destruct (apply_filters filters (_ <$> _)) as [kept|e] eqn:Hkept;
    [|by exists e]. simpl.
  assert (run_dict run ∈ kept) as Hin.
  { eapply apply_filters_singleton; [exact Hpass| |exact Hkept].
    apply list_elem_of_fmap_2, Hrun. }
  destruct s as [|c s]; [by rewrite contains_empty in Hs|].
  destruct (filterM_Err (search_match (String c s)) kept _ Hin) as [e He].
  { by eexists. }
  exists e. unfold apply_search. by rewrite He.
Qed.

(** The local search step cannot drop a run: when it returns, it
    returns what it was given. *)
Lemma apply_search_keeps_all search runs kept :
  apply_search search (run_dict <$> runs) = Ok kept → kept = run_dict <$> runs.
Proof.
  destruct search as [[|c s]|]; simpl; intros H; try by injection H.
  induction runs as [|run runs IH] in kept, H |- *; simpl in H.
  - by injection H.
  - bind_inv H. bind_inv H. injection H as <-.
    rewrite (IH _ Ha0). unfold search_match in Ha. simpl in Ha.
    destruct (py_in _ _) as [[]|]; simpl in Ha; by simplify_eq.
Qed.

Import Fixtures.

(** C2 at two calls: a run that fails both tests is not left out, the
    call raises; and so does the call for a run that the search string
    matches through its tags only. *)
Theorem local_search_fails_on_tags :
  get_wandb_runs (client [baseline; ablation]) "l2k2" "finetune" 50 1
    "-created_at" None (Some "baseline") = Err (KeyError "tags") ∧
  get_wandb_runs (client [baseline; sweep]) "l2k2" "finetune" 50 1
    "-created_at" None (Some "baseline") = Err (KeyError "tags") ∧
  py_in "baseline" (run_tags sweep) = Ok true.
Proof. by vm_compute. Qed.

(** C8 as first stated fails: a fetched run whose name does not contain
    the search string, but which the filter step has already dropped, is
    never asked for its tags, and the call returns. *)
Lemma search_miss_need_not_fail :
  ¬ ∀ api entity project per_page page order filters s run n,
      run ∈ fetched api entity project per_page page →
      run_name run = VStr n → contains s n = false →
      is_Err (get_wandb_runs api entity project per_page page order filters (Some s)).
Proof.
  intros H.
  destruct (H (client [rerun]) "l2k2" "finetune" 50%Z 1%Z "-created_at"
              (Some [("state", VStr "finished")]) "baseline" rerun "ablation")
    as [e He]; [by left|done|done|].
  vm_compute in He. discriminate He.
Qed.

Lemma local_filters_exact_witness :
  get_wandb_runs (client [baseline; sweep; ablation; rerun]) "l2k2" "finetune"
    50 1 "-created_at" (Some [("state", VStr "finished")]) None
  = Ok [run_dict ablation; run_dict baseline] ∧
  ∀ e, e ∈ [run_dict ablation; run_dict baseline] →
       ∀ k v, (k, v) ∈ [("state", VStr "finished")] → field_equals e k v.
Proof.
  split; [by vm_compute|].
  apply (local_filters_exact (client [baseline; sweep; ablation; rerun])
           "l2k2" "finetune" 50 1 "-created_at"
           (Some [("state", VStr "finished")]) None).
  by vm_compute.
Defined.

Lemma local_sort_order_witness :
  get_wandb_runs (client [baseline; sweep; ablation; rerun]) "l2k2" "finetune"
    50 1 "-created_at" None None
  = Ok (run_dict <$> [ablation; baseline; sweep; rerun]) ∧
  adjacent (λ a b, ∃ ka kb, getitem a "created_at" = Ok ka ∧
                            getitem b "created_at" = Ok kb ∧
                            py_ge ka kb = Ok true)
           (run_dict <$> [ablation; baseline; sweep; rerun]).
Proof.
  split; [by vm_compute|].
  apply (local_sort_order (client [baseline; sweep; ablation; rerun])
           "l2k2" "finetune" 50 1 "-created_at" None None);
    [by vm_compute| |done].
  repeat constructor; by eexists.
Defined.

Lemma local_search_raises_witness :
  contains "baseline" "ablation" = false ∧
  is_Err (get_wandb_runs (client [baseline; ablation]) "l2k2" "finetune" 50 1
            "name" None (Some "baseline")).
Proof.
  split; [done|].
  apply (local_search_raises (client [baseline; ablation]) "l2k2" "finetune"
           50 1 "name" None "baseline" ablation "ablation");
    [by right; left|done..].
Defined.

End LocalListing.

(** ** Metric histories *)
Module MetricHistory.

Lemma column_tolist_Ok frame column cells :
  column_tolist frame column = Ok cells →
  ∀ cells', (column, cells') ∈ frame → cells' = cells.
Proof.
  unfold column_tolist. intros H cells' Hin.
  assert ((column, cells') ∈ filter (λ c, c.1 = column) frame) as Hf.
  { by apply list_elem_of_filter. }
  destruct (filter _ frame) as [|[c0 cells0] [|??]]; try done.
  injection H as ->. apply list_elem_of_singleton in Hf. by injection Hf.
Qed.

Lemma filter_label_absent (frame : dataframe) column :
  column ∉ frame.*1 → filter (λ c, c.1 = column) frame = [].
Proof.
  induction frame as [|[c0 cells0] frame IH]; [done|].
  rewrite fmap_cons, not_elem_of_cons, filter_cons. simpl. intros [Hne Hnot].
  rewrite decide_False by done. by apply IH.
Qed.

Lemma column_tolist_NoDup (frame : dataframe) column cells :
  NoDup frame.*1 → (column, cells) ∈ frame → column_tolist frame column = Ok cells.
Proof.
  intros Hnd Hin. unfold column_tolist.
  assert (filter (λ c, c.1 = column) frame = [(column, cells)]) as ->; [|done].
  induction frame as [|[c0 cells0] frame IH]; [by apply not_elem_of_nil in Hin|].
  rewrite fmap_cons in Hnd. apply NoDup_cons in Hnd as [Hc0 Hnd].
  rewrite filter_cons. simpl.
  apply elem_of_cons in Hin as [[= <- <-]|Hin].
  - rewrite decide_True by done. f_equal. by apply filter_label_absent.
  - rewrite decide_False; [by apply IH|].
    intros ->. destruct Hc0. by apply (list_elem_of_fmap_2 fst _ (column, cells)).
Qed.

(** The loop invariant: a column label outside the bookkeeping three
    ends up mapped to that column's cells, every other key is as the
    accumulator had it. *)
Lemma metrics_loop_Ok frame columns acc m :
  metrics_loop frame columns acc = Ok m →
  ∀ c, (c ∈ columns → c ∉ bookkeeping →
        ∃ cells, column_tolist frame c = Ok cells ∧ m !! c = Some cells) ∧
       (¬ (c ∈ columns ∧ c ∉ bookkeeping) → m !! c = acc !! c).
Proof.
  revert acc. induction columns as [|c0 columns IH]; intros acc H c; simpl in H.
  - injection H as <-. split; [by intros ?%not_elem_of_nil|done].
  - case_bool_decide as Hc0.
    + bind_inv H. destruct (IH _ H c) as [IH1 IH2]. split.
      * intros Hin Hc. destruct (decide (c ∈ columns)) as [Hc'|Hc']; [by apply IH1|].
        apply elem_of_cons in Hin as [->|Hin]; [|done].
        exists a. split; [done|]. rewrite IH2 by tauto. apply lookup_insert_eq.
      * intros Hnot. rewrite IH2.
        -- apply lookup_insert_ne. intros ->. apply Hnot. split; [left|done].
        -- intros [Hin Hc]. apply Hnot. split; [by right|done].
    + destruct (IH _ H c) as [IH1 IH2]. split.
      * intros Hin Hc. apply elem_of_cons in Hin as [->|Hin]; [done|by apply IH1].
      * intros Hnot. apply IH2. intros [Hin Hc]. apply Hnot. split; [by right|done].
Qed.

Lemma metrics_loop_total frame columns acc :
  Forall (λ c, c ∉ bookkeeping → ∃ cells, column_tolist frame c = Ok cells) columns →
  ∃ m, metrics_loop frame columns acc = Ok m.
Proof.
  intros H. revert acc. induction H as [|c columns Hc _ IH]; intros acc; simpl.
  - by eexists.
  - case_bool_decide as Hb; [|done]. destruct (Hc Hb) as [cells ->]. simpl. apply IH.
Qed.

(** What the shared loop returns, for any frame. *)
Lemma history_metrics_Ok frame m :
  history_metrics frame = Ok m →
  m !! "_timestamp" = None ∧ m !! "_runtime" = None ∧ m !! "_step" = None ∧
  (∀ c cells, (c, cells) ∈ frame → c ∉ bookkeeping → m !! c = Some cells) ∧
  (∀ c, is_Some (m !! c) → c ∈ frame.*1 ∧ c ∉ bookkeeping).
Proof.
  intros H. pose proof (metrics_loop_Ok _ _ _ _ H) as Hm.
  assert (∀ c, c ∈ bookkeeping → m !! c = None) as Hbk.
  { intros c Hc. destruct (Hm c) as [_ ->]; [apply lookup_empty|tauto]. }
  split; [apply Hbk; by left|]. split; [apply Hbk; by right; left|].
  split; [apply Hbk; by do 2 right; left|]. split.
  - intros c cells Hin Hc. destruct (Hm c) as [(cells' & Hcells & ->) _]; [|done|].
    + by apply (list_elem_of_fmap_2 fst _ (c, cells)).
    + f_equal. symmetry. by eapply column_tolist_Ok.
  - intros c Hsome.
    destruct (decide (c ∈ frame.*1 ∧ c ∉ bookkeeping)) as [?|Hnot]; [done|].
    destruct (Hm c) as [_ Hacc]. rewrite Hacc, lookup_empty in Hsome by done.
    by apply is_Some_None in Hsome.
Qed.


End MetricHistory.

(** ** The run detail accessors *)
Module RunDetails.
Import MetricHistory Fixtures.



(** C5 as amended: when the client's run lookup raises, every detail
    accessor fails with that very exception, so none returns a mapping,
    empty or not. *)
Theorem missing_run_error_propagates api entity project run_id e :
  api_run api (run_path entity project run_id) = Err e →
  WandbMcpServer.get_run_config api entity project run_id = Err e ∧
  WandbMcpServer.get_run_summary_metrics api entity project run_id = Err e ∧
  WandbMcpServer.get_run_training_metrics api entity project run_id = Err e ∧
  WandbMcpServer.get_run_system_metrics api entity project run_id = Err e ∧
  GetWandbRuns.get_run_summary_metrics api entity project run_id = Err e ∧
  GetWandbRuns.get_run_training_metrics api entity project run_id = Err e ∧
  GetWandbRuns.get_run_system_metrics api entity project run_id = Err e.
Proof.
  intros H.
  unfold WandbMcpServer.get_run_config, WandbMcpServer.get_run_summary_metrics,
    WandbMcpServer.get_run_training_metrics, WandbMcpServer.get_run_system_metrics,
    GetWandbRuns.get_run_summary_metrics, GetWandbRuns.get_run_training_metrics,
    GetWandbRuns.get_run_system_metrics.
  by rewrite H.
Qed.

Lemma missing_run_error_propagates_witness :
  api_run (client [sweep]) (run_path "l2k2" "finetune" "zzz")
  = Err (not_found "run l2k2/finetune/zzz") ∧
  WandbMcpServer.get_run_config (client [sweep]) "l2k2" "finetune" "zzz"
  = Err (not_found "run l2k2/finetune/zzz").
Proof.
  split; [by vm_compute|].
  by apply (missing_run_error_propagates (client [sweep]) "l2k2" "finetune" "zzz").
Defined.

(** C5 as first stated fails: the exception that leaves the accessors is
    the client's own, here a CommError, and no RunNotFoundError. *)
Lemma missing_run_is_not_RunNotFoundError :
  ¬ ∀ api entity project run_id e,
      api_run api (run_path entity project run_id) = Err e →
      (∃ x, WandbMcpServer.get_run_config api entity project run_id = Err x ∧
            exn_class x = "RunNotFoundError") ∧
      (∃ x, WandbMcpServer.get_run_summary_metrics api entity project run_id = Err x ∧
            exn_class x = "RunNotFoundError") ∧
      (∃ x, WandbMcpServer.get_run_training_metrics api entity project run_id = Err x ∧
            exn_class x = "RunNotFoundError") ∧
      (∃ x, WandbMcpServer.get_run_system_metrics api entity project run_id = Err x ∧
            exn_class x = "RunNotFoundError").
Proof.
  intros H.
  destruct (H (client [sweep]) "l2k2" "finetune" "zzz"
              (not_found "run l2k2/finetune/zzz")) as [(x & Hx & Hclass) _];
    [by vm_compute|].
  vm_compute in Hx. injection Hx as <-. discriminate Hclass.
Qed.

End RunDetails.

(** ** Listings and the raw query *)
Module Listings.
Import Fixtures.

(** C6 as amended: when the listing raises, at once or after yielding
    some runs, both variants of the run listing fail with that very
    exception (its message with it) and the runs already reshaped are
    lost with the local list. *)
Theorem listing_error_propagates api entity project per_page page order filters search e :
  (raised (api_runs api (project_path entity project)
             {[ "per_page" := VInt per_page; "page" := VInt page ]}) = Some e →
   GetWandbRuns.get_wandb_runs api entity project per_page page order filters search
   = Err e) ∧
  (raised (api_runs api (project_path entity project)
             (WandbMcpServer.build_query_params per_page order filters search))
   = Some e →
   WandbMcpServer.get_wandb_runs api entity project per_page order filters search
   = Err e).
Proof.
  split; intros H.
  - unfold GetWandbRuns.get_wandb_runs, GetWandbRuns.fetch_runs.
    by rewrite for_each_spec, H.
  - unfold WandbMcpServer.get_wandb_runs. by rewrite for_each_spec, H.
Qed.

Lemma listing_error_propagates_witness :
  GetWandbRuns.get_wandb_runs (client [sweep]) "l2k2" "nope" 50 1 "-created_at"
    None None = Err (not_found "project l2k2/nope") ∧
  WandbMcpServer.get_wandb_runs (client [sweep]) "l2k2" "nope" 50 "-created_at"
    None None = Err (not_found "project l2k2/nope").
Proof.
  split.
  - by apply (listing_error_propagates (client [sweep]) "l2k2" "nope" 50 1
                "-created_at" None None).
  - by apply (listing_error_propagates (client [sweep]) "l2k2" "nope" 50 1
                "-created_at" None None).
Defined.

(** C6 as first stated fails: what leaves the listing is the client's
    own exception, here a CommError, and no RemoteAccessError. *)
Lemma listing_error_is_not_RemoteAccessError :
  ¬ ∀ api entity project per_page page order filters search e,
      raised (api_runs api (project_path entity project)
                {[ "per_page" := VInt per_page; "page" := VInt page ]}) = Some e →
      ∃ x, GetWandbRuns.get_wandb_runs api entity project per_page page order
             filters search = Err x ∧
           exn_class x = "RemoteAccessError".
Proof.
  intros H.
  destruct (H (client [sweep]) "l2k2" "nope" 50%Z 1%Z "-created_at" None None
              (not_found "project l2k2/nope")) as (x & Hx & Hclass);
    [by vm_compute|].
  vm_compute in Hx. injection Hx as <-. discriminate Hclass.
Qed.

(** C7: the project listing returns one mapping per project the client
    yields, in the order it yields them; each has exactly the keys name,
    entity, description, visibility, created_at, updated_at and tags,
    holding the project's attributes. *)
Theorem projects_in_remote_order api entity projects :
  api_projects api entity = Listing projects None →
  WandbMcpServer.get_entity_projects api entity
  = Ok (WandbMcpServer.project_dict <$> projects) ∧
  (∀ i, (WandbMcpServer.project_dict <$> projects) !! i
        = WandbMcpServer.project_dict <$> projects !! i) ∧
  (∀ project,
      (WandbMcpServer.project_dict project).*1
      = ["name"; "entity"; "description"; "visibility"; "created_at";
         "updated_at"; "tags"] ∧
      (WandbMcpServer.project_dict project).*2
      = [project_name project; project_entity project;
         project_description project; project_visibility project;
         project_created_at project; project_updated_at project;
         project_tags project]).
Proof.
  intros H. unfold WandbMcpServer.get_entity_projects.
  rewrite for_each_spec, H. simpl. split; [done|]. split; [|done].
  intros i. apply list_lookup_fmap.
Qed.

Lemma projects_in_remote_order_witness :
  api_projects (client []) "l2k2" = Listing [demo_project] None ∧
  WandbMcpServer.get_entity_projects (client []) "l2k2"
  = Ok [WandbMcpServer.project_dict demo_project].
Proof.
  split; [done|].
  by apply (projects_in_remote_order (client []) "l2k2" [demo_project]).
Defined.

(** C10: leaving the variables out runs the same remote query as
    passing an empty mapping, and in both cases what the client answers
    is returned as it is. *)
Theorem execute_None_is_empty api query :
  WandbMcpServer.execute_graphql_query api query None
  = WandbMcpServer.execute_graphql_query api query (Some []) ∧
  WandbMcpServer.execute_graphql_query api query None
  = api_client_execute api query [] ∧
  WandbMcpServer.execute_graphql_query api query (Some [])
  = api_client_execute api query [].
Proof. done. Qed.

End Listings.

(** ** The query parameters of the server variant *)
Module QueryParams.
Import WandbMcpServer.

Lemma add_filters_default filters (qp : gmap string value) :
  match filters with
  | Some ((_ :: _) as items) => add_filters items qp
  | _ => qp
  end = add_filters (default [] filters) qp.
Proof. by destruct filters as [[|??]|]. Qed.

Lemma add_filters_other items (qp : gmap string value) k :
  k ∉ forwarded ∨ k ∉ items.*1 → add_filters items qp !! k = qp !! k.
Proof.
  revert qp. induction items as [|[k0 v0] items IH]; intros qp Hk; [done|].
  simpl. rewrite IH.
  - case_bool_decide as Hk0; [|done]. apply lookup_insert_ne. intros ->.
    destruct Hk as [Hk|Hk]; [done|]. apply Hk. left.
  - destruct Hk as [Hk|Hk]; [by left|]. right. intros Hin. apply Hk. by right.
Qed.




Lemma build_query_params_eq per_page order filters search :
  build_query_params per_page order filters search =
  let query_params :=
    add_filters (default [] filters)
      {[ "per_page" := VInt per_page; "order" := VStr order ]} in
  match search with
  | Some ((String _ _) as s) => <["search" := VStr s]> query_params
  | _ => query_params
  end.
Proof. unfold build_query_params. by rewrite add_filters_default. Qed.





End QueryParams.

(** ** What raises, and what *)

Lemma py_lt_Err : ∀ a b e, py_lt a b = Err e → e = TypeError.
Proof.
  fix IH 1. intros [| | |xs|] [| | |ys|] e; simpl; try congruence.
  revert ys. induction xs as [|x xs IHxs]; intros [|y ys]; try congruence.
  destruct (py_eq x y); [apply IHxs|apply IH].
Qed.

Lemma py_in_Err s v e : py_in s v = Err e → e = TypeError.
Proof. destruct v; simpl; congruence. Qed.

Lemma filterM_Err_inv {A : Type} (p : A → result bool) (l : list A) e :
  filterM p l = Err e → ∃ x, x ∈ l ∧ p x = Err e.
Proof.
  induction l as [|x l IH]; simpl; [done|].
  destruct (p x) as [b|e'] eqn:Hp; simpl.
  - destruct (filterM p l) as [kept|e'']; simpl; [done|].
    intros [= ->]. destruct IH as (y & Hy & Hpy); [done|]. exists y. split; [by right|done].
  - intros [= ->]. exists x. split; [by left|done].
Qed.

Lemma keys_of_Err_inv {A : Type} (key : A → result value) (l : list A) e :
  keys_of key l = Err e → ∃ x, x ∈ l ∧ key x = Err e.
Proof.
  induction l as [|x l IH]; simpl; [done|].
  destruct (key x) as [k|e'] eqn:Hk; simpl.
  - destruct (keys_of key l) as [ks|e'']; simpl; [done|].
    intros [= ->]. destruct IH as (y & Hy & Hky); [done|]. exists y. split; [by right|done].
  - intros [= ->]. exists x. split; [by left|done].
Qed.

Lemma insert_keyed_Err {A : Type} (x : value * A) l e :
  insert_keyed x l = Err e → e = TypeError.
Proof.
  induction l as [|y l IH]; simpl; [done|].
  destruct (py_lt y.1 x.1) as [[]|e'] eqn:Hlt; simpl.
  - destruct (insert_keyed x l); simpl; [done|]. intros [= ->]. by apply IH.
  - done.
  - intros [= ->]. by eapply py_lt_Err.
Qed.

Lemma sort_keyed_Err {A : Type} (l : list (value * A)) e :
  sort_keyed l = Err e → e = TypeError.
Proof.
  induction l as [|x l IH]; simpl; [done|].
  destruct (sort_keyed l) as [s|e']; simpl.
  - apply insert_keyed_Err.
  - intros [= ->]. by apply IH.
Qed.

Lemma list_sort_Err {A : Type} (key : A → result value) reversed (l : list A) e :
  list_sort key reversed l = Err e → e = TypeError ∨ ∃ x, x ∈ l ∧ key x = Err e.
Proof.
  unfold list_sort. destruct (keys_of key l) as [keyed|e'] eqn:Hk; simpl.
  - destruct (sort_keyed _) as [s|e'] eqn:Hs; simpl; [done|].
    intros [= ->]. left. by eapply sort_keyed_Err.
  - intros [= ->]. right. by apply keys_of_Err_inv.
Qed.

(** ** More on the local run listing *)
Module LocalListingMore.
Import GetWandbRuns LocalListing.

Lemma getitem_Err d k e : getitem d k = Err e → e = KeyError k ∧ k ∉ d.*1.
Proof.
  unfold getitem. destruct (assoc k d) eqn:E; [done|].
  intros [= <-]. split; [done|]. by apply assoc_None.
Qed.

Lemma filter_passes_all (l : list pydict) (P : pydict → bool) :
  (∀ e, P e = true) → filter P l = l.
Proof.
  intros HP. induction l as [|e l IH]; [done|].
  rewrite filter_cons, decide_True, IH; [done|]. by rewrite HP.
Qed.

Lemma apply_filters_eq filters l kept :
  apply_filters filters l = Ok kept → kept = filter (passes filters) l.
Proof.
  destruct filters as [[|kv items]|]; intros H.
  1,3: injection H as <-; symmetry; by apply filter_passes_all.
  unfold apply_filters in H. by apply filterM_Ok in H as [-> _].
Qed.

Lemma search_match_no_tags s e b :
  search_match s e = Ok b → "tags" ∉ e.*1 →
  b = true ∧ ∃ name, getitem e "name" = Ok name ∧ py_in s name = Ok true.
Proof.
  unfold search_match. intros H Htags. bind_inv H. bind_inv H.
  destruct a0; [|by rewrite (getitem_KeyError e "tags") in H].
  injection H as <-. split; [done|]. by exists a.
Qed.

Lemma apply_search_no_tags search l kept :
  apply_search search l = Ok kept → Forall (λ e, "tags" ∉ e.*1) l → kept = l.
Proof.
  destruct search as [[|c s]|]; simpl; intros H Hl; try by injection H.
  revert kept H. induction Hl as [|e l He Hl IH]; intros kept H; simpl in H.
  - by injection H.
  - bind_inv H. bind_inv H. injection H as <-.
    destruct (search_match_no_tags _ _ _ Ha He) as [-> _]. by rewrite (IH _ Ha0).
Qed.

Lemma run_dicts_no_tags (l : list pydict) runs :
  l ⊆ run_dict <$> runs → Forall (λ e, "tags" ∉ e.*1) l.
Proof.
  intros Hsub. apply Forall_forall. intros e He.
  apply Hsub, list_elem_of_fmap in He as (run & -> & _).
  rewrite run_dict_keys. unfold local_keys. intros Hin.
  repeat (apply elem_of_cons in Hin as [?|Hin]; [done|]).
  by apply not_elem_of_nil in Hin.
Qed.

Lemma filter_subseteq_run_dicts (P : pydict → bool) (l : list pydict) :
  filter P l ⊆ l.
Proof. intros e. rewrite list_elem_of_filter. tauto. Qed.

Lemma kept_runs_Ok api entity project per_page page filters search kept :
  kept_runs api entity project per_page page filters search = Ok kept →
  raised (api_runs api (project_path entity project)
            {[ "per_page" := VInt per_page; "page" := VInt page ]}) = None ∧
  kept = filter (passes filters) (run_dict <$> fetched api entity project per_page page).
Proof.
  unfold kept_runs. intros H. bind_inv H. bind_inv H.
  assert (raised (api_runs api (project_path entity project)
            {[ "per_page" := VInt per_page; "page" := VInt page ]}) = None) as Hraised.
  { unfold fetch_runs in Ha. rewrite for_each_spec in Ha. by destruct (raised _). }
  apply fetch_runs_Ok in Ha as ->. apply apply_filters_eq in Ha0 as ->.
  split; [done|]. apply apply_search_no_tags in H; [done|].
  eapply run_dicts_no_tags, filter_subseteq_run_dicts.
Qed.

Lemma all_match_Ok_equals run items b :
  all_match run items = Ok b → b = equals_all items run.
Proof.
  revert b. induction items as [|[k v] items IH]; intros b H; simpl in H.
  - by injection H as <-.
  - bind_inv H. apply getitem_Ok in Ha. simpl. rewrite Ha.
    destruct (py_eq a v); [by apply IH|by injection H as <-].
Qed.

Lemma equals_all_true items run :
  equals_all items run = true ↔ ∀ k v, (k, v) ∈ items → field_equals run k v.
Proof.
  unfold equals_all. rewrite forallb_forall. split.
  - intros H k v Hin. apply list_elem_of_In, H in Hin. simpl in Hin.
    destruct (assoc k run) as [x|] eqn:Hx; [|done].
    exists x. split; [by apply getitem_Ok|done].
  - intros H [k v] Hin%list_elem_of_In. destruct (H k v Hin) as (x & Hx & Heq).
    apply getitem_Ok in Hx. simpl. by rewrite Hx.
Qed.

Lemma filter_agree {A : Type} (P Q : A → bool) (l : list A) :
  Forall (λ x, P x = Q x) l → filter P l = filter Q l.
Proof.
  induction 1 as [|x l Hx _ IH]; [done|].
  rewrite !filter_cons, IH, Hx. by destruct (Q x).
Qed.

Lemma apply_filters_equals filters l kept :
  apply_filters filters l = Ok kept →
  kept = filter (equals_all (default [] filters)) l.
Proof.
  destruct filters as [[|kv items]|]; intros H.
  1,3: injection H as <-; symmetry; by apply filter_passes_all.
  unfold apply_filters in H. apply filterM_Ok in H as [-> Hall].
  apply filter_agree. eapply Forall_impl; [exact Hall|].
  intros e [b Hb]. change (default [] (Some (kv :: items))) with (kv :: items).
  rewrite <- (all_match_Ok_equals e (kv :: items) b Hb), Hb. by destruct b.
Qed.

(** X1: whenever the local listing returns, what it returns is a
    rearrangement of exactly the fetched runs that hold the given value
    under every filter key: each such run is in it, every run in it is
    such a run, none is added, and the search string removes none. *)
Theorem local_result_is_passing_runs api entity project per_page page order filters search R :
  get_wandb_runs api entity project per_page page order filters search = Ok R →
  R ≡ₚ filter (equals_all (default [] filters))
         (run_dict <$> fetched api entity project per_page page) ∧
  (∀ run, run ∈ fetched api entity project per_page page →
          (∀ k v, (k, v) ∈ default [] filters → field_equals (run_dict run) k v) →
          run_dict run ∈ R) ∧
  (∀ e, e ∈ R → ∀ k v, (k, v) ∈ default [] filters → field_equals e k v).
Proof.
  intros H. unfold get_wandb_runs in H. bind_inv H. bind_inv H. bind_inv H.
  apply list_sort_perm in H. apply fetch_runs_Ok in Ha as ->.
  apply apply_filters_equals in Ha0 as ->.
  apply apply_search_no_tags in Ha1 as ->;
    [|eapply run_dicts_no_tags, filter_subseteq_run_dicts].
  split; [done|]. split.
  - intros run Hrun Heq. rewrite H. apply list_elem_of_filter. split.
    + apply Is_true_true. by apply equals_all_true.
    + by apply list_elem_of_fmap_2.
  - intros e He. rewrite H in He. apply list_elem_of_filter in He as [He _].
    by apply equals_all_true, Is_true_true.
Qed.

Lemma prefix_app s t : String.prefix s t = true ↔ ∃ post, t = (s ++ post)%string.
Proof.
  revert t. induction s as [|a s IH]; intros t.
  - split; [intros _; by exists t|by destruct t].
  - destruct t as [|b t]; simpl.
    + split; [done|by intros [post ?]].
    + destruct (ascii_dec a b) as [->|Hne].
      * rewrite IH. split; intros [post Hp]; exists post.
        -- simpl. by rewrite Hp.
        -- simpl in Hp. by injection Hp.
      * split; [done|]. intros [post Hp]. simpl in Hp. by injection Hp.
Qed.

Lemma contains_app s t :
  contains s t = true ↔ ∃ pre post, t = (pre ++ s ++ post)%string.
Proof.
  induction t as [|b t IH].
  - change (contains s "") with (String.prefix s "" || false).
    rewrite orb_false_r, prefix_app. split.
    + intros [post Hp]. by exists "", post.
    + intros (pre & post & Hp). destruct pre; [by exists post|done].
  - change (contains s (String b t))
      with (String.prefix s (String b t) || contains s t).
    rewrite orb_true_iff, prefix_app, IH. split.
    + intros [[post Hp]|(pre & post & Hp)]; [by exists "", post|].
      exists (String b pre), post. simpl. by rewrite Hp.
    + intros (pre & post & Hp). destruct pre as [|c pre]; [left; by exists post|].
      right. exists pre, post. simpl in Hp. by injection Hp.
Qed.

(** X2: when the local listing returns for a non-empty search string,
    the name test came out true for every returned run: a string name has
    the search string inside it, character for character. *)
Theorem local_search_names api entity project per_page page order filters c s R :
  get_wandb_runs api entity project per_page page order filters (Some (String c s))
  = Ok R →
  ∀ e, e ∈ R →
       ∃ name, getitem e "name" = Ok name ∧ py_in (String c s) name = Ok true ∧
               ∀ n, name = VStr n → ∃ pre post, n = (pre ++ String c s ++ post)%string.
Proof.
  intros H e He. unfold get_wandb_runs in H. bind_inv H. bind_inv H. bind_inv H.
  apply list_sort_perm in H. rewrite H in He.
  apply fetch_runs_Ok in Ha as ->. apply apply_filters_eq in Ha0 as ->.
  pose proof Ha1 as Hsame. apply apply_search_no_tags in Hsame;
    [|eapply run_dicts_no_tags, filter_subseteq_run_dicts]. subst a1.
  simpl in Ha1. apply filterM_Ok in Ha1 as [_ Hall].
  rewrite Forall_forall in Hall. destruct (Hall _ He) as [b Hb].
  destruct (search_match_no_tags _ _ _ Hb) as [_ (name & Hname & Hin)].
  { pose proof (run_dicts_no_tags _ _
        (filter_subseteq_run_dicts (passes filters)
           (run_dict <$> fetched api entity project per_page page))) as Hno.
    rewrite Forall_forall in Hno. by apply Hno. }
  exists name. split; [done|]. split; [done|].
  intros n ->. simpl in Hin. injection Hin as Hin. by apply contains_app.
Qed.

Lemma all_match_Err run items e :
  all_match run items = Err e →
  ∃ k, e = KeyError k ∧ k ∈ items.*1 ∧ k ∉ run.*1.
Proof.
  induction items as [|[k v] items IH]; simpl; [done|].
  destruct (getitem run k) as [x|e'] eqn:Hx; simpl.
  - destruct (py_eq x v); [|done]. intros H.
    destruct (IH H) as (k' & -> & Hk' & Hrun). exists k'. split; [done|].
    split; [by right|done].
  - intros [= ->]. apply getitem_Err in Hx as [-> Hk]. exists k.
    split; [done|]. split; [by left|done].
Qed.

(** X3: the only exception the filter step can raise is the KeyError of
    a filter key that is no key of the run mapping, and it raises it only
    for a run that holds the asked value under every entry before it. *)
Theorem filter_step_raises_KeyError filters runs e :
  apply_filters filters (run_dict <$> runs) = Err e →
  ∃ k run pre v post,
    e = KeyError k ∧ (k ∉ local_keys) ∧ run ∈ runs ∧
    default [] filters = pre ++ (k, v) :: post ∧
    Forall (λ kv, field_equals (run_dict run) kv.1 kv.2) pre.
Proof.
  destruct filters as [[|kv items]|]; try done. unfold apply_filters.
  intros (x & (run & -> & Hrun)%list_elem_of_fmap & Hm)%filterM_Err_inv.
  simpl. remember (kv :: items) as all eqn:Hall. clear Hall.
  assert (∃ k pre v post, e = KeyError k ∧ (k ∉ local_keys) ∧
            all = pre ++ (k, v) :: post ∧
            Forall (λ kv, field_equals (run_dict run) kv.1 kv.2) pre)
    as (k & pre & v & post & ? & ? & ? & ?); [|by exists k, run, pre, v, post].
  induction all as [|[k v] all IH]; [done|]. simpl in Hm.
  destruct (getitem (run_dict run) k) as [x|e'] eqn:Hx; simpl in Hm.
  - destruct (py_eq x v) eqn:Heq; [|done].
    destruct (IH Hm) as (k' & pre & v' & post & -> & Hk' & -> & Hpre).
    exists k', ((k, v) :: pre), v', post. split; [done|]. split; [done|].
    split; [done|]. constructor; [by exists x|done].
  - injection Hm as ->. apply getitem_Err in Hx as [-> Hk].
    exists k, [], v, all. by rewrite run_dict_keys in Hk.
Qed.

(** X4: the filter test stops at the first entry a run does not match:
    the run is rejected whatever comes after, unknown keys included. *)
Theorem all_match_stops_at_mismatch run pre k v post x :
  Forall (λ kv, field_equals run kv.1 kv.2) pre →
  getitem run k = Ok x → py_eq x v = false →
  all_match run (pre ++ (k, v) :: post) = Ok false.
Proof.
  intros Hpre Hx Hne. rewrite all_match_prefix by done. simpl.
  rewrite Hx. simpl. by rewrite Hne.
Qed.

Lemma kept_are_run_dicts api entity project per_page page filters search kept e :
  kept_runs api entity project per_page page filters search = Ok kept →
  e ∈ kept → e.*1 = local_keys.
Proof.
  intros [_ ->]%kept_runs_Ok [_ (run & -> & _)%list_elem_of_fmap]%list_elem_of_filter.
  apply run_dict_keys.
Qed.

(** X5: an [order] that names no key of the run mapping makes the local
    listing raise KeyError on that name as soon as one run is kept, and
    goes unnoticed when none is. *)
Theorem sort_by_unknown_field api entity project per_page page order filters search kept :
  kept_runs api entity project per_page page filters search = Ok kept →
  lstrip_dash order ∉ local_keys →
  get_wandb_runs api entity project per_page page order filters search =
  match kept with
  | [] => Ok []
  | _ :: _ => Err (KeyError (lstrip_dash order))
  end.
Proof.
  intros Hkept Hfield. rewrite get_wandb_runs_kept, Hkept. simpl.
  destruct kept as [|e kept].
  { unfold sort_runs, list_sort. simpl. by destruct (startswith_dash order). }
  unfold sort_runs, list_sort. simpl.
  rewrite getitem_KeyError; [done|].
  rewrite (kept_are_run_dicts _ _ _ _ _ _ _ _ e Hkept); [done|by left].
Qed.

Lemma sort_keyed_dicts {A : Type} (l : list (value * A)) :
  Forall (λ x, is_dict x.1) l →
  sort_keyed l = match l with
                 | [] => Ok []
                 | [x] => Ok [x]
                 | _ :: _ :: _ => Err TypeError
                 end.
Proof.
  induction 1 as [|x l [dx Hx] Hl IH]; [done|]. simpl. rewrite IH.
  destruct Hl as [|y l [dy Hy] Hl]; [done|].
  destruct l as [|z l]; [|done]. simpl. by rewrite Hy, Hx.
Qed.

(** X6: sorting on a field that holds dictionaries (config, summary)
    raises TypeError as soon as two runs are kept. *)
Theorem sort_by_dict_field api entity project per_page page order filters search kept :
  kept_runs api entity project per_page page filters search = Ok kept →
  (2 ≤ length kept)%nat →
  Forall (λ e, ∃ v, sort_key order e = Ok v ∧ is_dict v) kept →
  get_wandb_runs api entity project per_page page order filters search = Err TypeError.
Proof.
  intros Hkept Hlen Hdict. rewrite get_wandb_runs_kept, Hkept. simpl.
  unfold sort_runs, list_sort.
  change (λ run, getitem run (lstrip_dash order)) with (sort_key order).
  destruct (keys_of_total (sort_key order) kept) as [keyed Hkeyed].
  { eapply Forall_impl; [done|]. intros e (v & Hv & _). by exists v. }
  rewrite Hkeyed. simpl. destruct (keys_of_Ok _ _ _ Hkeyed) as [Hl Hby].
  set (input := if startswith_dash order then reverse keyed else keyed).
  assert (input ≡ₚ keyed) as Hperm.
  { unfold input. destruct (startswith_dash order); [apply reverse_Permutation|done]. }
  assert (Forall (λ x, is_dict x.1) keyed) as Hd.
  { apply Forall_forall. intros x Hx.
    assert (x.2 ∈ kept) as Hin by (rewrite <- Hl; by apply list_elem_of_fmap_2).
    destruct (proj1 (Forall_forall _ _) Hdict _ Hin) as (v & Hv & Hvd).
    rewrite (proj1 (Forall_forall _ _) Hby _ Hx) in Hv. by injection Hv as ->. }
  rewrite sort_keyed_dicts by by rewrite Hperm.
  assert (length input = length kept) as Hlen'.
  { by rewrite Hperm, <- Hl, length_fmap. }
  destruct input as [|? [|? ?]]; simpl in *; [lia..|done].
Qed.

(** X7: a listing that yields no run and raises nothing gives the empty
    sequence, whatever the order, the filters and the search string. *)
Theorem empty_listing_is_empty api entity project per_page page order filters search :
  api_runs api (project_path entity project)
    {[ "per_page" := VInt per_page; "page" := VInt page ]} = Listing [] None →
  get_wandb_runs api entity project per_page page order filters search = Ok [].
Proof.
  intros H. unfold get_wandb_runs, fetch_runs. rewrite for_each_spec, H. simpl.
  destruct filters as [[|??]|], search as [[|??]|]; simpl;
    unfold sort_runs, list_sort; simpl; by destruct (startswith_dash order).
Qed.

Lemma lstrip_dash_dashes n s : lstrip_dash (dashes n s) = lstrip_dash s.
Proof. induction n as [|n IH]; [done|]. simpl. exact IH. Qed.

(** X8: only the presence of a leading dash counts: any number of them
    sorts like one. *)
Theorem extra_dashes_are_ignored api entity project per_page page order filters search n :
  get_wandb_runs api entity project per_page page (dashes (S n) order) filters search =
  get_wandb_runs api entity project per_page page (String "-" order) filters search.
Proof.
  rewrite !get_wandb_runs_kept. unfold sort_runs.
  change (String "-" order) with (dashes 1 order).
  by rewrite !lstrip_dash_dashes.
Qed.

(** X9: every exception that leaves the local listing is the one the
    remote listing raised, a TypeError from a test or a comparison, or the
    KeyError of a name that is no key of the run mapping: a filter key,
    'tags', or the sort field. *)
Theorem local_listing_errors api entity project per_page page order filters search e :
  get_wandb_runs api entity project per_page page order filters search = Err e →
  raised (api_runs api (project_path entity project)
            {[ "per_page" := VInt per_page; "page" := VInt page ]}) = Some e ∨
  e = TypeError ∨
  ∃ k, e = KeyError k ∧ (k ∉ local_keys) ∧
       (k ∈ (default [] filters).*1 ∨ k = "tags" ∨ k = lstrip_dash order).
Proof.
  unfold get_wandb_runs, fetch_runs. rewrite for_each_spec.
  fold (fetched api entity project per_page page).
  destruct (raised _) as [e'|]; simpl; [by intros [= ->]; left|].
  destruct (apply_filters filters _) as [kept|e'] eqn:Hf; simpl.
  - apply apply_filters_eq in Hf as ->.
    set (kept := filter _ _).
    assert (∀ x, x ∈ kept → x.*1 = local_keys) as Hkeys.
    { intros x [_ (run & -> & _)%list_elem_of_fmap]%list_elem_of_filter.
      apply run_dict_keys. }
    destruct (apply_search search kept) as [kept'|e'] eqn:Hs; simpl.
    + apply apply_search_subseteq in Hs. intros [->|(x & Hx & Hk)]%list_sort_Err.
      * by right; left.
      * apply getitem_Err in Hk as [-> Hk]. rewrite Hkeys in Hk by by apply Hs.
        right; right. exists (lstrip_dash order). auto.
    + intros [= ->]. destruct search as [[|c s]|]; try done. simpl in Hs.
      apply filterM_Err_inv in Hs as (x & Hx & Hm). unfold search_match in Hm.
      destruct (getitem x "name") as [name|e'] eqn:Hname; simpl in Hm.
      * destruct (py_in (String c s) name) as [[]|e'] eqn:Hin; simpl in Hm; [done|..].
        -- destruct (getitem x "tags") as [tags|e'] eqn:Htags; simpl in Hm.
           ++ apply py_in_Err in Hm. by right; left.
           ++ injection Hm as ->. apply getitem_Err in Htags as [-> Hk].
              rewrite Hkeys in Hk by done. right; right. exists "tags". auto.
        -- injection Hm as ->. apply py_in_Err in Hin. by right; left.
      * injection Hm as ->. apply getitem_Err in Hname as [-> Hk].
        rewrite Hkeys in Hk by done. destruct Hk. unfold local_keys. by right; left.
  - intros [= ->]. destruct filters as [[|kv items]|]; try done.
    unfold apply_filters in Hf. apply filterM_Err_inv in Hf as (x & Hx & Hm).
    apply (all_match_Err x (kv :: items)) in Hm as (k & -> & Hk & Hrun).
    apply list_elem_of_fmap in Hx as (run & -> & _). rewrite run_dict_keys in Hrun.
    right; right. exists k. auto.
Qed.

End LocalListingMore.

(** ** More on metric histories *)
Module MetricHistoryMore.
Import MetricHistory.

Lemma filter_label_metric_columns (frame : dataframe) c :
  c ∉ bookkeeping →
  filter (λ kv, kv.1 = c) (metric_columns frame) = filter (λ kv, kv.1 = c) frame.
Proof.
  intros Hc. unfold metric_columns.
  induction frame as [|[c0 cells0] frame IH]; [done|].
  rewrite (filter_cons (λ c, c.1 ∉ bookkeeping)).
  destruct (decide ((c0, cells0).1 ∉ bookkeeping)) as [Hc0|Hc0]; simpl in Hc0.
  - rewrite !(filter_cons (λ kv, kv.1 = c)), IH. done.
  - rewrite (filter_cons (λ kv, kv.1 = c)), decide_False; [done|].
    simpl. intros ->. by apply Hc0.
Qed.

Lemma column_tolist_metric_columns (frame : dataframe) c :
  c ∉ bookkeeping → column_tolist (metric_columns frame) c = column_tolist frame c.
Proof. intros Hc. unfold column_tolist. by rewrite filter_label_metric_columns. Qed.

Lemma column_tolist_Err (frame : dataframe) c e :
  c ∈ frame.*1 → column_tolist frame c = Err e → e = AttributeError.
Proof.
  intros Hin. unfold column_tolist.
  destruct (filter _ frame) as [|[c0 cells0] [|??]] eqn:Hf; try congruence.
  apply list_elem_of_fmap in Hin as ([c' cells] & -> & Hin).
  assert ((c', cells) ∈ filter (λ kv, kv.1 = (c', cells).1) frame) as Hin'.
  { by apply list_elem_of_filter. }
  rewrite Hf in Hin'. by apply not_elem_of_nil in Hin'.
Qed.

Lemma metrics_loop_Err frame columns acc e :
  metrics_loop frame columns acc = Err e →
  ∃ c, c ∈ columns ∧ (c ∉ bookkeeping) ∧ column_tolist frame c = Err e.
Proof.
  revert acc. induction columns as [|c0 columns IH]; intros acc; simpl; [done|].
  case_bool_decide as Hc0.
  - destruct (column_tolist frame c0) as [cells|e'] eqn:Hc; simpl.
    + intros (c & Hin & Hc' & He)%IH. exists c. split; [by right|done].
    + intros [= ->]. exists c0. split; [by left|done].
  - intros (c & Hin & Hc' & He)%IH. exists c. split; [by right|done].
Qed.

Lemma metric_columns_label (frame : dataframe) c :
  c ∈ (metric_columns frame).*1 ↔ c ∈ frame.*1 ∧ c ∉ bookkeeping.
Proof.
  unfold metric_columns. rewrite !list_elem_of_fmap. split.
  - intros ([c' cells] & -> & [Hc Hin]%list_elem_of_filter). split; [|done].
    by exists (c', cells).
  - intros [([c' cells] & -> & Hin) Hc]. exists (c', cells). split; [done|].
    by apply list_elem_of_filter.
Qed.

Lemma history_metrics_distinct (frame : dataframe) :
  NoDup (metric_columns frame).*1 → ∃ m, history_metrics frame = Ok m.
Proof.
  intros Hnd. apply metrics_loop_total, Forall_forall. intros c Hin Hc.
  assert (c ∈ (metric_columns frame).*1) as Hin' by by apply metric_columns_label.
  apply list_elem_of_fmap in Hin' as ([c' cells] & -> & Hin').
  exists cells. rewrite <- column_tolist_metric_columns by done.
  by apply column_tolist_NoDup.
Qed.

Lemma single_columns_NoDup (l : dataframe) :
  (∀ c, c ∈ l.*1 → ∃ cells, filter (λ kv, kv.1 = c) l = [(c, cells)]) →
  NoDup l.*1.
Proof.
  induction l as [|[c0 cells0] l IH]; intros Hsingle; [constructor|].
  rewrite fmap_cons. simpl.
  destruct (Hsingle c0) as [cells Hc0]; [by left|].
  rewrite filter_cons, decide_True in Hc0 by done. injection Hc0 as _ Hnil.
  assert (c0 ∉ l.*1) as Hfresh.
  { intros ([c' cells'] & -> & Hin)%list_elem_of_fmap.
    assert ((c', cells') ∈ filter (λ kv, kv.1 = (c', cells').1) l) as Hin'.
    { by apply list_elem_of_filter. }
    rewrite Hnil in Hin'. by apply not_elem_of_nil in Hin'. }
  constructor; [done|]. apply IH. intros c Hc.
  destruct (Hsingle c) as [cells' Hcells]; [by right|].
  rewrite filter_cons, decide_False in Hcells; [by exists cells'|].
  simpl. by intros ->.
Qed.

Lemma history_metrics_Ok_distinct (frame : dataframe) m :
  history_metrics frame = Ok m → NoDup (metric_columns frame).*1.
Proof.
  intros Hm. pose proof (metrics_loop_Ok _ _ _ _ Hm) as Hloop.
  apply single_columns_NoDup.
  intros c [Hin Hc]%metric_columns_label.
  destruct (Hloop c) as [(cells & Hcells & _) _]; [done..|].
  unfold column_tolist in Hcells. rewrite <- filter_label_metric_columns in Hcells by done.
  destruct (filter _ (metric_columns frame)) as [|[c0 cells0] [|??]] eqn:Hf; try done.
  assert ((c0, cells0) ∈ filter (λ kv, kv.1 = c) (metric_columns frame)) as Hc0.
  { rewrite Hf. by left. }
  apply list_elem_of_filter in Hc0 as [Hc0 _]. simpl in Hc0. subst c0.
  by exists cells0.
Qed.

Lemma history_metrics_Err (frame : dataframe) e :
  history_metrics frame = Err e →
  e = AttributeError ∧ ¬ NoDup (metric_columns frame).*1.
Proof.
  intros He. split.
  - apply metrics_loop_Err in He as (c & Hin & _ & He). by eapply column_tolist_Err.
  - intros [m Hm]%history_metrics_distinct. congruence.
Qed.

(** X10: the loop of the history accessors returns exactly when no two
    of the columns it keeps share a label; otherwise what it raises is the
    AttributeError of [tolist] on a frame. *)
Theorem history_metrics_returns_iff_distinct (frame : dataframe) :
  (NoDup (metric_columns frame).*1 ↔ ∃ m, history_metrics frame = Ok m) ∧
  (∀ e, history_metrics frame = Err e →
        e = AttributeError ∧ ¬ NoDup (metric_columns frame).*1).
Proof.
  split; [|apply history_metrics_Err]. split; [apply history_metrics_distinct|].
  intros [m Hm]. by eapply history_metrics_Ok_distinct.
Qed.

(** X11: what the loop returns is the mapping read off the kept columns:
    one key per column outside the bookkeeping three, holding its cells. *)
Theorem history_metrics_closed_form (frame : dataframe) m :
  history_metrics frame = Ok m →
  m = list_to_map (metric_columns frame) ∧ size m = length (metric_columns frame).
Proof.
  intros Hm.
  assert (NoDup (metric_columns frame).*1) as Hnd.
  { by eapply history_metrics_Ok_distinct. }
  destruct (history_metrics_Ok _ _ Hm) as (_ & _ & _ & Hcols & Hdom).
  assert (m = list_to_map (metric_columns frame)) as ->.
  { apply map_eq. intros c.
    destruct (list_to_map (metric_columns frame) !! c) as [cells|] eqn:Hl.
    - apply elem_of_list_to_map in Hl; [|done].
      apply list_elem_of_filter in Hl as [Hc Hin]. by apply Hcols.
    - apply not_elem_of_list_to_map in Hl.
      destruct (m !! c) as [cells|] eqn:Hc; [|done].
      destruct Hl. apply metric_columns_label, Hdom. by rewrite Hc. }
  split; [done|]. rewrite <- (length_fmap fst).
  by rewrite <- (size_dom (D := gset string)), dom_list_to_map_L, size_list_to_set.
Qed.

(** X12: an exception that leaves a history accessor is the one the run
    lookup raised, the one reading the history raised, or the
    AttributeError of two kept columns under one label. *)
Theorem history_accessor_errors accessor stream api entity project run_id e :
  (accessor, stream) ∈ history_accessors →
  accessor api entity project run_id = Err e →
  api_run api (run_path entity project run_id) = Err e ∨
  ∃ run, api_run api (run_path entity project run_id) = Ok run ∧
         (run_history run stream = Err e ∨
          ∃ frame, run_history run stream = Ok frame ∧ e = AttributeError ∧
                   ¬ NoDup (metric_columns frame).*1).
Proof.
  intros Hacc.
  assert (accessor = λ api entity project run_id,
            run ← api_run api (run_path entity project run_id);
            history ← run_history run stream;
            history_metrics history) as ->.
  { unfold history_accessors in Hacc.
    repeat (apply elem_of_cons in Hacc as [[= -> ->]|Hacc]; [done|]).
    by apply not_elem_of_nil in Hacc. }
  simpl. destruct (api_run _ _) as [run|e'] eqn:Hrun; simpl; [|intros [= ->]; by left].
  intros H. right. exists run. split; [done|].
  destruct (run_history run stream) as [frame|e'] eqn:Hframe; simpl in H;
    [|injection H as ->; by left].
  right. exists frame. split; [done|]. by apply history_metrics_Err.
Qed.

End MetricHistoryMore.

(** ** More on the server tools *)
Module ServerMore.
Import QueryParams.

(** X13: the server variant neither filters nor sorts on its side: it
    returns one mapping per run the remote listing yields, in that order,
    and each is the mapping of the local variant with the run's tags
    added under 'tags'. *)
Theorem server_listing_is_remote_listing api entity project per_page order filters search runs :
  api_runs api (project_path entity project)
    (WandbMcpServer.build_query_params per_page order filters search)
  = Listing runs None →
  WandbMcpServer.get_wandb_runs api entity project per_page order filters search
  = Ok (WandbMcpServer.run_dict <$> runs) ∧
  (∀ i, (WandbMcpServer.run_dict <$> runs) !! i = WandbMcpServer.run_dict <$> runs !! i) ∧
  (∀ run, WandbMcpServer.run_dict run
          = GetWandbRuns.run_dict run ++ [("tags", run_tags run)]).
Proof.
  intros H. unfold WandbMcpServer.get_wandb_runs. rewrite for_each_spec, H.
  split; [done|]. split; [|done]. intros i. apply list_lookup_fmap.
Qed.

(** X14: no filter mapping can displace the parameters the server
    variant sets itself: per_page and order always carry the arguments,
    and search is present exactly for a non-empty search string. *)
Theorem own_params_are_kept per_page order filters search :
  WandbMcpServer.build_query_params per_page order filters search !! "per_page"
  = Some (VInt per_page) ∧
  WandbMcpServer.build_query_params per_page order filters search !! "order"
  = Some (VStr order) ∧
  WandbMcpServer.build_query_params per_page order filters search !! "search"
  = match search with
    | Some ((String _ _) as s) => Some (VStr s)
    | _ => None
    end.
Proof.
  rewrite build_query_params_eq. simpl.
  assert (∀ k, k ∈ own_params → k ∉ WandbMcpServer.forwarded) as Hown.
  { intros k Hk Hf. unfold own_params in Hk. unfold WandbMcpServer.forwarded in Hf.
    repeat (apply elem_of_cons in Hk as [->|Hk];
            [repeat (apply elem_of_cons in Hf as [?|Hf]; [done|]);
             by apply not_elem_of_nil in Hf|]).
    by apply not_elem_of_nil in Hk. }
  assert (∀ k, k ∈ own_params →
            WandbMcpServer.add_filters (default [] filters)
              ({[ "per_page" := VInt per_page; "order" := VStr order ]}
                 : gmap string value) !! k
            = ({[ "per_page" := VInt per_page; "order" := VStr order ]}
                 : gmap string value) !! k) as Hadd.
  { intros k Hk. apply add_filters_other. left. by apply Hown. }
  destruct search as [[|c s]|];
    rewrite ?lookup_insert_eq, ?lookup_insert_ne, !Hadd by (done || by repeat constructor);
    done.
Qed.

(** X15: when the project listing raises, at once or after yielding
    some projects, [get_entity_projects] fails with that very exception
    and the mappings already built are lost. *)
Theorem project_listing_error_propagates api entity e :
  raised (api_projects api entity) = Some e →
  WandbMcpServer.get_entity_projects api entity = Err e.
Proof.
  intros H. unfold WandbMcpServer.get_entity_projects. by rewrite for_each_spec, H.
Qed.

End ServerMore.

(** ** When the local listing returns *)
Module LocalListingReturns.
Import GetWandbRuns LocalListing LocalListingMore.

Lemma apply_filters_total filters runs :
  (∀ k, k ∈ (default [] filters).*1 → k ∈ local_keys) →
  apply_filters filters (run_dict <$> runs)
  = Ok (filter (passes filters) (run_dict <$> runs)).
Proof.
  intros Hkeys. destruct filters as [[|kv items]|].
  1,3: unfold apply_filters; f_equal; symmetry; by apply filter_passes_all.
  unfold apply_filters. apply filterM_total, Forall_forall.
  intros e (run & -> & _)%list_elem_of_fmap.
  by apply (all_match_total (run_dict run) (kv :: items)).
Qed.

Lemma filterM_all_true {A : Type} (p : A → result bool) (l : list A) :
  Forall (λ x, p x = Ok true) l → filterM p l = Ok l.
Proof. induction 1 as [|x l Hx _ IH]; simpl; [done|]. by rewrite Hx, IH. Qed.

(** X16: the local listing returns whenever the remote listing raises
    nothing, every filter key is a key of the run mapping, every run that
    passes the filters has a string under the sort field and, for a
    non-empty search string, a name that contains it. *)
Theorem local_listing_returns api entity project per_page page order filters search :
  raised (api_runs api (project_path entity project)
            {[ "per_page" := VInt per_page; "page" := VInt page ]}) = None →
  (∀ k, k ∈ (default [] filters).*1 → k ∈ local_keys) →
  (∀ run, run ∈ fetched api entity project per_page page →
          passes filters (run_dict run) = true →
          (∃ f, sort_key order (run_dict run) = Ok (VStr f)) ∧
          (∀ c s, search = Some (String c s) →
                  ∃ n, run_name run = VStr n ∧ contains (String c s) n = true)) →
  ∃ R, get_wandb_runs api entity project per_page page order filters search = Ok R.
Proof.
  intros Hraised Hkeys Hruns. unfold get_wandb_runs, fetch_runs.
  rewrite for_each_spec, Hraised. simpl.
  fold (fetched api entity project per_page page).
  rewrite apply_filters_total by done. simpl.
  set (kept := filter _ _).
  assert (∀ e, e ∈ kept → ∃ run, e = run_dict run ∧
            run ∈ fetched api entity project per_page page ∧
            passes filters (run_dict run) = true) as Hkept.
  { intros e [Hp (run & -> & Hrun)%list_elem_of_fmap]%list_elem_of_filter.
    exists run. split; [done|]. split; [done|]. by apply Is_true_true. }
  assert (apply_search search kept = Ok kept) as ->.
  { destruct search as [[|c s]|]; try done. simpl.
    apply filterM_all_true, Forall_forall. intros e (run & -> & Hrun & Hp)%Hkept.
    destruct (Hruns run Hrun Hp) as [_ Hname].
    destruct (Hname c s eq_refl) as (n & Hn & Hc).
    unfold search_match. simpl. rewrite Hn. simpl. by rewrite Hc. }
  simpl.
  destruct (list_sort_str (sort_key order) (startswith_dash order) kept)
    as (sorted & Hsorted & _).
  { apply Forall_forall. intros e (run & -> & Hrun & Hp)%Hkept.
    by destruct (Hruns run Hrun Hp) as [Hkey _]. }
  by exists sorted.
Qed.

End LocalListingReturns.

(** ** The added properties at concrete calls *)
Module MoreWitnesses.
Import Fixtures MoreFixtures.

Lemma local_result_is_passing_runs_witness :
  GetWandbRuns.get_wandb_runs (client [baseline; sweep; ablation; rerun])
    "l2k2" "finetune" 50 1 "-created_at" (Some [("state", VStr "finished")]) None
  = Ok [GetWandbRuns.run_dict ablation; GetWandbRuns.run_dict baseline] ∧
  [GetWandbRuns.run_dict ablation; GetWandbRuns.run_dict baseline]
  ≡ₚ filter (equals_all [("state", VStr "finished")])
       (GetWandbRuns.run_dict <$>
          fetched (client [baseline; sweep; ablation; rerun]) "l2k2" "finetune" 50 1).
Proof.
  split; [by vm_compute|].
  apply (LocalListingMore.local_result_is_passing_runs
           (client [baseline; sweep; ablation; rerun]) "l2k2" "finetune" 50 1
           "-created_at" (Some [("state", VStr "finished")]) None).
  by vm_compute.
Defined.

Lemma local_search_names_witness :
  GetWandbRuns.get_wandb_runs (client [baseline]) "l2k2" "finetune" 50 1 "name"
    None (Some "base") = Ok [GetWandbRuns.run_dict baseline] ∧
  ∀ e, e ∈ [GetWandbRuns.run_dict baseline] →
       ∃ name, getitem e "name" = Ok name ∧ py_in "base" name = Ok true ∧
               ∀ n, name = VStr n → ∃ pre post, n = (pre ++ "base" ++ post)%string.
Proof.
  split; [by vm_compute|].
  apply (LocalListingMore.local_search_names (client [baseline]) "l2k2" "finetune"
           50 1 "name" None "b" "ase").
  by vm_compute.
Defined.

Lemma filter_step_raises_KeyError_witness :
  GetWandbRuns.apply_filters (Some [("state", VStr "finished"); ("tags", VList [])])
    (GetWandbRuns.run_dict <$> [rerun; baseline]) = Err (KeyError "tags") ∧
  ∃ k run pre v post,
    KeyError "tags" = KeyError k ∧ (k ∉ local_keys) ∧ run ∈ [rerun; baseline] ∧
    default [] (Some [("state", VStr "finished"); ("tags", VList [])])
    = pre ++ (k, v) :: post ∧
    Forall (λ kv, field_equals (GetWandbRuns.run_dict run) kv.1 kv.2) pre.
Proof.
  split; [by vm_compute|].
  apply (LocalListingMore.filter_step_raises_KeyError
           (Some [("state", VStr "finished"); ("tags", VList [])]) [rerun; baseline]).
  by vm_compute.
Defined.

Lemma all_match_stops_at_mismatch_witness :
  GetWandbRuns.all_match (GetWandbRuns.run_dict rerun)
    ([("name", VStr "ablation")] ++ ("state", VStr "finished") :: [("bogus", VNone)])
  = Ok false.
Proof.
  apply (LocalListingMore.all_match_stops_at_mismatch (GetWandbRuns.run_dict rerun)
           [("name", VStr "ablation")] "state" (VStr "finished") [("bogus", VNone)]
           (VStr "crashed")); [|by vm_compute..].
  repeat constructor. exists (VStr "ablation"). by vm_compute.
Defined.

Lemma sort_by_unknown_field_witness :
  kept_runs (client [baseline]) "l2k2" "finetune" 50 1 None None
  = Ok [GetWandbRuns.run_dict baseline] ∧
  GetWandbRuns.get_wandb_runs (client [baseline]) "l2k2" "finetune" 50 1 "-tags"
    None None = Err (KeyError "tags").
Proof.
  split; [by vm_compute|].
  apply (LocalListingMore.sort_by_unknown_field (client [baseline]) "l2k2" "finetune"
           50 1 "-tags" None None [GetWandbRuns.run_dict baseline]); [by vm_compute|].
  apply (bool_decide_eq_false_1 ("tags" ∈ local_keys)). by vm_compute.
Defined.

Lemma sort_by_dict_field_witness :
  kept_runs (client [baseline; ablation]) "l2k2" "finetune" 50 1 None None
  = Ok (GetWandbRuns.run_dict <$> [baseline; ablation]) ∧
  GetWandbRuns.get_wandb_runs (client [baseline; ablation]) "l2k2" "finetune" 50 1
    "config" None None = Err TypeError.
Proof.
  split; [by vm_compute|].
  apply (LocalListingMore.sort_by_dict_field (client [baseline; ablation]) "l2k2"
           "finetune" 50 1 "config" None None
           (GetWandbRuns.run_dict <$> [baseline; ablation]));
    [by vm_compute|simpl; lia|].
  repeat constructor; exists (VDict [("lr", VInt 3)]); (split; [done|by eexists]).
Defined.

Lemma empty_listing_is_empty_witness :
  api_runs (client []) (project_path "l2k2" "finetune")
    {[ "per_page" := VInt 50; "page" := VInt 1 ]} = Listing [] None ∧
  GetWandbRuns.get_wandb_runs (client []) "l2k2" "finetune" 50 1 "no-such-field"
    (Some [("bogus", VNone)]) (Some "x") = Ok [].
Proof.
  split; [done|].
  by apply (LocalListingMore.empty_listing_is_empty (client []) "l2k2" "finetune").
Defined.

Lemma local_listing_errors_witness :
  GetWandbRuns.get_wandb_runs (client [baseline; ablation]) "l2k2" "finetune" 50 1
    "-created_at" None (Some "baseline") = Err (KeyError "tags") ∧
  (raised (api_runs (client [baseline; ablation]) (project_path "l2k2" "finetune")
             {[ "per_page" := VInt 50; "page" := VInt 1 ]}) = Some (KeyError "tags") ∨
   KeyError "tags" = TypeError ∨
   ∃ k, KeyError "tags" = KeyError k ∧ (k ∉ local_keys) ∧
        (k ∈ (default [] (None : option pydict)).*1 ∨ k = "tags" ∨
         k = lstrip_dash "-created_at")).
Proof.
  split; [by vm_compute|].
  apply (LocalListingMore.local_listing_errors (client [baseline; ablation]) "l2k2"
           "finetune" 50 1 "-created_at" None (Some "baseline")).
  by vm_compute.
Defined.

Lemma local_listing_returns_witness :
  ∃ R, GetWandbRuns.get_wandb_runs (client [baseline]) "l2k2" "finetune" 50 1
         "-created_at" (Some [("state", VStr "finished")]) (Some "base") = Ok R.
Proof.
  apply (LocalListingReturns.local_listing_returns (client [baseline]) "l2k2"
           "finetune" 50 1 "-created_at" (Some [("state", VStr "finished")])
           (Some "base")).
  - done.
  - intros k [->|Hk%not_elem_of_nil]%elem_of_cons; [|done].
    apply (bool_decide_eq_true_1 ("state" ∈ local_keys)). by vm_compute.
  - intros run [->|Hrun%not_elem_of_nil]%elem_of_cons _; [|done]. split.
    + by eexists.
    + intros c s [= <- <-]. by exists "baseline-1".
Defined.

Lemma history_metrics_returns_iff_distinct_witness :
  history_metrics twice = Err AttributeError ∧
  ¬ NoDup (metric_columns twice).*1.
Proof.
  split; [by vm_compute|].
  apply (proj2 (MetricHistoryMore.history_metrics_returns_iff_distinct twice)
           AttributeError).
  by vm_compute.
Defined.

Lemma history_metrics_closed_form_witness :
  history_metrics frame10
  = Ok {[ "loss" := VInt <$> [9; 8; 7; 6; 5; 4; 3; 2; 1; 0]%Z;
          "accuracy" := VInt <$> [0; 1; 2; 3; 4; 5; 6; 7; 8; 9]%Z ]} ∧
  size ({[ "loss" := VInt <$> [9; 8; 7; 6; 5; 4; 3; 2; 1; 0]%Z;
           "accuracy" := VInt <$> [0; 1; 2; 3; 4; 5; 6; 7; 8; 9]%Z ]}
          : gmap string (list value)) = length (metric_columns frame10).
Proof.
  split; [by vm_compute|].
  apply (MetricHistoryMore.history_metrics_closed_form frame10). by vm_compute.
Defined.

Lemma history_accessor_errors_witness :
  WandbMcpServer.get_run_system_metrics (client [relogged]) "l2k2" "finetune"
    "id-relogged" = Err AttributeError ∧
  (api_run (client [relogged]) (run_path "l2k2" "finetune" "id-relogged")
   = Err AttributeError ∨
   ∃ run, api_run (client [relogged]) (run_path "l2k2" "finetune" "id-relogged")
          = Ok run ∧
          (run_history run StreamEvents = Err AttributeError ∨
           ∃ frame, run_history run StreamEvents = Ok frame ∧
                    AttributeError = AttributeError ∧
                    ¬ NoDup (metric_columns frame).*1)).
Proof.
  split; [by vm_compute|].
  apply (MetricHistoryMore.history_accessor_errors
           WandbMcpServer.get_run_system_metrics StreamEvents (client [relogged])
           "l2k2" "finetune" "id-relogged");
    [by do 3 right; left|by vm_compute].
Defined.

Lemma server_listing_is_remote_listing_witness :
  api_runs (client [baseline; sweep]) (project_path "l2k2" "finetune")
    (WandbMcpServer.build_query_params 50 "-created_at"
       (Some [("state", VStr "finished")]) (Some "baseline"))
  = Listing [baseline; sweep] None ∧
  WandbMcpServer.get_wandb_runs (client [baseline; sweep]) "l2k2" "finetune" 50
    "-created_at" (Some [("state", VStr "finished")]) (Some "baseline")
  = Ok (WandbMcpServer.run_dict <$> [baseline; sweep]).
Proof.
  split; [done|].
  by apply (ServerMore.server_listing_is_remote_listing (client [baseline; sweep])
              "l2k2" "finetune" 50 "-created_at" (Some [("state", VStr "finished")])
              (Some "baseline") [baseline; sweep]).
Defined.

Lemma project_listing_error_propagates_witness :
  raised (api_projects (client []) "nobody") = Some (not_found "entity nobody") ∧
  WandbMcpServer.get_entity_projects (client []) "nobody"
  = Err (not_found "entity nobody").
Proof.
  split; [done|].
  by apply (ServerMore.project_listing_error_propagates (client []) "nobody").
Defined.

End MoreWitnesses.
